(** * DDR keyword risk processor: a shallow embedding of [kw_processor.py]

    The program scans the sheets of Daily Drilling Report workbooks for the
    operations column, segments the narrative rows below its header, matches
    every narrative against a list of risk keywords and collects the matches
    into one table.

    Conventions of the embedding.
    - A Python [str] is a [string]; characters are ASCII, the case mappings
      and the whitespace and digit classes are those of Python on the code
      points below 128 (a code above 127 has no case, is no space, no digit).
    - A sheet cell is a tagged union ([cell]); a frame is its width together
      with its rows.
    - An exception is a value of [result]; [print] appends a line to the
      console, which the printing functions return next to their value.
    - The file system is a finite map from paths to files. *)

From Stdlib Require Import ZArith Ascii String DecimalString.
From stdpp Require Import base list gmap strings.

Local Open Scope string_scope.

#[local] Arguments String.append !s1 s2 : simpl nomatch.

(** ** Python strings *)

Module PyStr.

Definition code (c : ascii) : nat := nat_of_ascii c.

Definition in_range (lo hi : nat) (c : ascii) : bool :=
  (lo <=? code c)%nat && (code c <=? hi)%nat.

(** [str.isspace] on one character: TAB..CR, FS..US and the space. *)
Definition is_space (c : ascii) : bool :=
  in_range 9 13 c || in_range 28 31 c || (code c =? 32)%nat.

(** [\d] on an ASCII character. *)
Definition is_digit (c : ascii) : bool := in_range 48 57 c.

Definition lower_char (c : ascii) : ascii :=
  if in_range 65 90 c then ascii_of_nat (code c + 32) else c.

Definition upper_char (c : ascii) : ascii :=
  if in_range 97 122 c then ascii_of_nat (code c - 32) else c.

Fixpoint map_chars (f : ascii -> ascii) (s : string) : string :=
  match s with
  | EmptyString => EmptyString
  | String c s' => String (f c) (map_chars f s')
  end.

(** [s.lower()] and [s.upper()]. *)
Definition lower (s : string) : string := map_chars lower_char s.
Definition upper (s : string) : string := map_chars upper_char s.

Fixpoint all_chars (p : ascii -> bool) (s : string) : bool :=
  match s with
  | EmptyString => true
  | String c s' => p c && all_chars p s'
  end.

(** [s.lstrip()]: drop the leading whitespace. *)
Fixpoint lstrip (s : string) : string :=
  match s with
  | EmptyString => EmptyString
  | String c s' => if is_space c then lstrip s' else s
  end.

(** [s.rstrip()]: drop the trailing whitespace. *)
Fixpoint rstrip (s : string) : string :=
  match s with
  | EmptyString => EmptyString
  | String c s' =>
      match rstrip s' with
      | EmptyString => if is_space c then EmptyString else String c EmptyString
      | r => String c r
      end
  end.

(** [s.strip()]. *)
Definition strip (s : string) : string := rstrip (lstrip s).

(** [s.startswith(p)]. *)
Fixpoint startswith (p s : string) : bool :=
  match p, s with
  | EmptyString, _ => true
  | String _ _, EmptyString => false
  | String a p', String b s' => if ascii_dec a b then startswith p' s' else false
  end.

(** [sub in s]: some suffix of [s] starts with [sub]. *)
Fixpoint contains (sub s : string) : bool :=
  startswith sub s ||
  match s with
  | EmptyString => false
  | String _ s' => contains sub s'
  end.

(** [s.endswith(suffix)]: [suffix] is [s] or ends the tail of [s]. *)
Fixpoint endswith (suffix s : string) : bool :=
  String.eqb suffix s ||
  match s with
  | EmptyString => false
  | String _ s' => endswith suffix s'
  end.

(** [s.rfind('.')], [None] for [-1]. *)
Fixpoint rfind_dot (s : string) : option nat :=
  match s with
  | EmptyString => None
  | String c s' =>
      match rfind_dot s' with
      | Some i => Some (S i)
      | None => if ascii_dec c "." then Some 0 else None
      end
  end.

(** [sep.join(xs)]. *)
Fixpoint join (sep : string) (xs : list string) : string :=
  match xs with
  | [] => ""
  | [x] => x
  | x :: rest => x ++ sep ++ join sep rest
  end.

(** [str(n)] for a natural number. *)
Definition str_nat (n : nat) : string := NilEmpty.string_of_uint (Nat.to_uint n).

(** [n] in decimal, zero-padded on the left to [width] characters. *)
Fixpoint zfill_go (missing : nat) (s : string) : string :=
  match missing with
  | O => s
  | S k => String "0" (zfill_go k s)
  end.

Definition zfill (width n : nat) : string :=
  let s := str_nat n in zfill_go (width - String.length s) s.

End PyStr.

(** ** Exceptions *)

Inductive exception : Type :=
  | IndexError (index : Z) (size : nat)  (* an [iloc] position out of bounds *)
  | FileError (msg : string).            (* a workbook or a sheet that cannot be read *)

(** [str(i)] for an integer. *)
Definition str_int (i : Z) : string :=
  if (i <? 0)%Z then "-" ++ PyStr.str_nat (Z.abs_nat i) else PyStr.str_nat (Z.abs_nat i).

(** [str(e)]; for an [IndexError] the text of the array library. *)
Definition str_exception (e : exception) : string :=
  match e with
  | IndexError index size =>
      "index " ++ str_int index ++ " is out of bounds for axis 0 with size "
      ++ PyStr.str_nat size
  | FileError msg => msg
  end.

Inductive result (A : Type) : Type :=
  | Ok (a : A)
  | Raise (e : exception).

Arguments Ok {A} a.
Arguments Raise {A} e.

Definition bind {A B : Type} (r : result A) (k : A -> result B) : result B :=
  match r with
  | Ok a => k a
  | Raise e => Raise e
  end.

Notation "'let!' x ':=' r 'in' k" := (bind r (fun x => k))
  (at level 10, x name, r at level 100, k at level 200,
   format "'[v' 'let!'  x  ':='  r  'in' '/' k ']'").

(** A [for] loop whose body may [return] (or [break] with a value): the first
    iteration that yields [Some v] ends the loop. *)
Fixpoint for_return {A R : Type} (xs : list A) (body : A -> result (option R))
  : result (option R) :=
  match xs with
  | [] => Ok None
  | x :: rest =>
      let! r := body x in
      match r with
      | Some v => Ok (Some v)
      | None => for_return rest body
      end
  end.

(** A [for] loop that updates an accumulator; an exception ends it. *)
Fixpoint for_each {A S : Type} (xs : list A) (acc : S) (body : S -> A -> result S)
  : result S :=
  match xs with
  | [] => Ok acc
  | x :: rest => let! acc' := body acc x in for_each rest acc' body
  end.

(** [range(n)] and [range(a, b)]. *)
Definition range (n : nat) : list nat := seq 0 n.
Definition range_from (a b : nat) : list nat := seq a (b - a).

(** ** Sheet cells and frames *)

(** The fields of a [pd.Timestamp] that the program renders. *)
Record timestamp : Type := {
  year : nat; month : nat; day : nat; hour : nat; minute : nat
}.

(** [t.strftime('%Y-%m-%d %H:%M')]; the year of a [pd.Timestamp] has four
    digits. *)
Definition strftime_date_time (t : timestamp) : string :=
  PyStr.str_nat (year t) ++ "-" ++ PyStr.zfill 2 (month t) ++ "-" ++
  PyStr.zfill 2 (day t) ++ " " ++ PyStr.zfill 2 (hour t) ++ ":" ++
  PyStr.zfill 2 (minute t).

(** [t.strftime('%H:%M')]. *)
Definition strftime_time (t : timestamp) : string :=
  PyStr.zfill 2 (hour t) ++ ":" ++ PyStr.zfill 2 (minute t).

(** A cell as the program distinguishes it: missing ([NaN], [None], [NaT],
    the values [pd.isna] accepts), a [str], a [pd.Timestamp], or any other
    scalar (a number, a bool, a [datetime.time]...), of which the program
    only uses [str(v)]. *)
Inductive cell : Type :=
  | CEmpty
  | CStr (s : string)
  | CTimestamp (t : timestamp)
  | CPlain (repr : string).

(** A frame read with [header=None]: [columns] is [len(df.columns)], [rows]
    holds the cells; a row shorter than the width reads as missing beyond
    its end, as pandas pads it. *)
Record DataFrame : Type := {
  columns : nat;
  rows : list (list cell)
}.

Definition len (df : DataFrame) : nat := length (rows df).

(** The position a column index denotes: negative indices count from the
    end, anything else out of the width is an [IndexError]. *)
Definition column_position (df : DataFrame) (col : Z) : result nat :=
  if (0 <=? col)%Z && (col <? Z.of_nat (columns df))%Z then Ok (Z.to_nat col)
  else if (- Z.of_nat (columns df) <=? col)%Z && (col <? 0)%Z
       then Ok (Z.to_nat (Z.of_nat (columns df) + col))
       else Raise (IndexError col (columns df)).

(** [df.iloc[row_idx, col_idx]]. *)
Definition iloc (df : DataFrame) (row_idx : nat) (col_idx : Z) : result cell :=
  match rows df !! row_idx with
  | None => Raise (IndexError (Z.of_nat row_idx) (len df))
  | Some row =>
      let! pos := column_position df col_idx in
      Ok (default CEmpty (row !! pos))
  end.

(** ** The program *)

(** [isinstance(v, str) and 'DETAILS OF OPERATIONS' in v.upper()]. *)
Definition is_operations_header (v : cell) : bool :=
  match v with
  | CStr s => PyStr.contains "DETAILS OF OPERATIONS" (PyStr.upper s)
  | _ => false
  end.

(** [find_operations_column(df)]. *)
Definition find_operations_column (df : DataFrame) : result Z :=
  let! found :=
    for_return (range (min 100 (len df))) (fun row_idx =>
      for_return (range (columns df)) (fun col_idx =>
        let! cell_value := iloc df row_idx (Z.of_nat col_idx) in
        if is_operations_header cell_value
        then Ok (Some (Z.of_nat col_idx))
        else Ok None)) in
  match found with
  | Some col_idx => Ok col_idx
  | None => Ok (-1)%Z
  end.

(** The dict appended by [find_operations_data]. *)
Record operation : Type := {
  time_date : string;
  details : string
}.

(** [isinstance(v, str) and ('TOTAL' in v.upper() or 'SUMMARY' in v.upper())]. *)
Definition is_section_break (v : cell) : bool :=
  match v with
  | CStr s => PyStr.contains "TOTAL" (PyStr.upper s)
              || PyStr.contains "SUMMARY" (PyStr.upper s)
  | _ => false
  end.

(** Lines 93-103: the time string of a row from its first two cells. A
    cell passes [pd.notna] unless it is [CEmpty]; [isinstance(v, pd.Timestamp)]
    holds of [CTimestamp] alone; [str(v)] of a string is the string. *)
Definition format_time (time_from time_to : cell) : string :=
  let time_str := "" in
  let time_str :=
    match time_from with
    | CEmpty => time_str
    | CTimestamp t => strftime_date_time t
    | CStr s => s
    | CPlain repr => repr
    end in
  match time_to with
  | CEmpty => time_str
  | CTimestamp t => time_str ++ " to " ++ strftime_time t
  | CStr s => if String.eqb time_str "" then time_str else time_str ++ " to " ++ s
  | CPlain repr => if String.eqb time_str "" then time_str else time_str ++ " to " ++ repr
  end.

(** The narrative of a row that is not skipped: a [str] that is not blank. *)
Definition narrative (v : cell) : option string :=
  match v with
  | CStr s => if String.eqb (PyStr.strip s) "" then None else Some s
  | _ => None
  end.

(** The first loop of [find_operations_data]: the row of the header in the
    operations column, [None] for the source's [-1]. *)
Definition find_header_row (df : DataFrame) (ops_col : Z) : result (option nat) :=
  for_return (range (min 100 (len df))) (fun row_idx =>
    let! cell_value := iloc df row_idx ops_col in
    if is_operations_header cell_value then Ok (Some row_idx) else Ok None).

(** [find_operations_data(df, ops_col)]. *)
Definition find_operations_data (df : DataFrame) (ops_col : Z)
  : result (list operation) :=
  let results := [] in
  let! header_row := find_header_row df ops_col in
  match header_row with
  | None => Ok results
  | Some header_row =>
      let data_start := header_row + 2 in
      for_each (range_from data_start (len df)) results (fun results row_idx =>
        let! details := iloc df row_idx ops_col in
        match narrative details with
        | None =>
            let! col0_val := iloc df row_idx 0 in
            if is_section_break col0_val then Ok results else Ok results
        | Some text =>
            let! time_from := iloc df row_idx 0 in
            let! time_to := iloc df row_idx 1 in
            Ok (results ++ [{| time_date := format_time time_from time_to;
                               details := text |}])%list
        end)
  end.

(** [search_keywords(text, keywords)]. *)
Definition search_keywords (text : string) (keywords : list string) : list string :=
  let text_lower := PyStr.lower text in
  fold_left (fun matched kw =>
               if PyStr.contains (PyStr.lower kw) text_lower
               then (matched ++ [kw])%list else matched)
            keywords [].

(** ** Paths, workbooks and the file system *)

(** A path: the folder it lies in and its final component. *)
Record Path : Type := {
  parent : string;
  name : string
}.

Definition path_str (p : Path) : string := parent p ++ "/" ++ name p.

(** [filepath.stem]: the final component without its last suffix; a leading
    dot or a trailing dot starts no suffix. *)
Definition stem (p : Path) : string :=
  match PyStr.rfind_dot (name p) with
  | Some i =>
      if (0 <? i)%nat && (i <? String.length (name p) - 1)%nat
      then String.substring 0 i (name p)
      else name p
  | None => name p
  end.

(** A sheet of a workbook: the frame [pd.read_excel(..., header=None)] gives
    for it, or the failure of reading it. *)
Inductive sheet : Type :=
  | Sheet (df : DataFrame)
  | BadSheet (msg : string).

(** A file: a workbook with its named sheets in order, or something that
    does not open as a workbook. *)
Inductive file : Type :=
  | Workbook (sheets : list (string * sheet))
  | NotWorkbook (msg : string).

(** A folder as [glob] sees it: its path and the names in it, in the order
    the operating system lists them. *)
Record Folder : Type := {
  folder_path : string;
  entries : list string
}.

(** [folder.glob('*' + suffix)]. *)
Definition glob (folder : Folder) (suffix : string) : list Path :=
  map (fun n => {| parent := folder_path folder; name := n |})
      (List.filter (PyStr.endswith suffix) (entries folder)).

(** [pd.ExcelFile(filepath)]. *)
Definition ExcelFile (fs : gmap string file) (filepath : Path)
  : result (list (string * sheet)) :=
  match fs !! path_str filepath with
  | Some (Workbook sheets) => Ok sheets
  | Some (NotWorkbook msg) => Raise (FileError msg)
  | None => Raise (FileError "No such file or directory")
  end.

Definition sheet_names (xl : list (string * sheet)) : list string := map fst xl.

Fixpoint find_sheet (sheet_name : string) (xl : list (string * sheet)) : option sheet :=
  match xl with
  | [] => None
  | (n, sh) :: rest => if String.eqb n sheet_name then Some sh else find_sheet sheet_name rest
  end.

(** [pd.read_excel(filepath, sheet_name=sheet_name, header=None)]. *)
Definition read_excel (fs : gmap string file) (filepath : Path) (sheet_name : string)
  : result DataFrame :=
  let! xl := ExcelFile fs filepath in
  match find_sheet sheet_name xl with
  | Some (Sheet df) => Ok df
  | Some (BadSheet msg) => Raise (FileError msg)
  | None => Raise (FileError "Worksheet not found")
  end.

(** ** The report number *)

(** The pattern of [extract_report_number] under [re.IGNORECASE], compiled
    by hand: the alternatives [DDR\s*#?\s*] and [#\s*], in this order, then
    the group [\d+].  The greedy [\s*] is [PyStr.lstrip], the greedy [#?] is
    [skip_hash], the greedy group [(\d+)] is the longest run of digits.
    No backtracking is needed: a shorter [\s*] or an empty [#?] leaves a
    space or a [#] in front of [\d+]. *)

Definition eq_ignore_case (a b : ascii) : bool :=
  bool_decide (PyStr.lower_char a = PyStr.lower_char b).

Fixpoint take_digits (s : string) : string :=
  match s with
  | EmptyString => EmptyString
  | String c s' => if PyStr.is_digit c then String c (take_digits s') else EmptyString
  end.

(** [(\d+)] at the start of [s]: its group. *)
Definition match_digits (s : string) : option string :=
  match take_digits s with
  | EmptyString => None
  | ds => Some ds
  end.

(** [#?] at the start of [s]: what remains. *)
Definition skip_hash (s : string) : string :=
  match s with
  | String c s' => if ascii_dec c "#" then s' else s
  | EmptyString => s
  end.

(** [DDR\s*#?\s*(\d+)] at the start of [s]. *)
Definition match_ddr (s : string) : option string :=
  match s with
  | String c1 (String c2 (String c3 rest)) =>
      if eq_ignore_case c1 "D" && eq_ignore_case c2 "D" && eq_ignore_case c3 "R"
      then match_digits (PyStr.lstrip (skip_hash (PyStr.lstrip rest)))
      else None
  | _ => None
  end.

(** [#\s*(\d+)] at the start of [s]. *)
Definition match_hash (s : string) : option string :=
  match s with
  | String c rest => if ascii_dec c "#" then match_digits (PyStr.lstrip rest) else None
  | EmptyString => None
  end.

(** The whole pattern at the start of [s]: the alternatives in order. *)
Definition match_here (s : string) : option string :=
  match match_ddr s with
  | Some g => Some g
  | None => match_hash s
  end.

(** [re.search(pattern, s, re.IGNORECASE)]: group 1 of the leftmost match. *)
Fixpoint re_search (s : string) : option string :=
  match match_here s with
  | Some g => Some g
  | None =>
      match s with
      | EmptyString => None
      | String _ s' => re_search s'
      end
  end.

(** [extract_report_number(filepath)]. *)
Definition extract_report_number (filepath : Path) : string :=
  let filename := stem filepath in
  match re_search filename with
  | Some group1 => group1
  | None => filename
  end.

(** ** Files and the result table *)

(** The dict appended by [process_ddr_file]: one row of the result table,
    with the columns [Report Number], [Time/Date] and [Risks]. *)
Record risk_match : Type := {
  report_number : string;
  match_time_date : string;
  risks : string
}.

(** [process_ddr_file(filepath, keywords)]. *)
Definition process_ddr_file (fs : gmap string file) (filepath : Path)
    (keywords : list string) : result (list risk_match) :=
  let results := [] in
  let report_number := extract_report_number filepath in
  let! xl := ExcelFile fs filepath in
  for_each (sheet_names xl) results (fun results sheet_name =>
    let! df := read_excel fs filepath sheet_name in
    let! ops_col := find_operations_column df in
    if (ops_col =? -1)%Z then Ok results
    else
      let! operations := find_operations_data df ops_col in
      Ok (fold_left (fun results op =>
                       let matched_keywords := search_keywords (details op) keywords in
                       match matched_keywords with
                       | [] => results
                       | _ :: _ =>
                           (results ++
                              [{| report_number := report_number;
                                  match_time_date := time_date op;
                                  risks := PyStr.join ", " matched_keywords |}])%list
                       end)
                    operations results)).

(** [process_all_files(input_folder, keywords)]: the rows of the returned
    frame and the lines printed. *)
Definition process_all_files (fs : gmap string file) (input_folder : Folder)
    (keywords : list string) : list risk_match * list string :=
  let all_results := [] in
  let excel_files := (glob input_folder ".xlsx" ++ glob input_folder ".xls")%list in
  fold_left (fun '(all_results, console) (filepath : Path) =>
               let console := (console ++ [("Processing: " ++ name filepath)%string])%list in
               match process_ddr_file fs filepath keywords with
               | Ok results =>
                   ((all_results ++ results)%list,
                    (console ++ [("  Found " ++ PyStr.str_nat (length results)
                                  ++ " risk entries")%string])%list)
               | Raise e =>
                   (all_results,
                    (console ++ [("  Error processing file: " ++ str_exception e)%string])%list)
               end)
            excel_files (all_results, []).

(** [df.empty] for the frame of a list of rows. *)
Definition empty (df : list risk_match) : bool :=
  match df with [] => true | _ :: _ => false end.

(** A written [str] as it reads back: the empty string is a missing cell
    (texts that a spreadsheet takes for a formula, those beginning with "=",
    are outside this model). *)
Definition written (s : string) : cell :=
  if String.eqb s "" then CEmpty else CStr s.

(** The sheet [df.to_excel(..., index=False)] writes: the column names, then
    the rows. *)
Definition to_excel (df : list risk_match) : sheet :=
  Sheet {| columns := 3;
           rows := [CStr "Report Number"; CStr "Time/Date"; CStr "Risks"]
                   :: map (fun m => [written (report_number m);
                                     written (match_time_date m);
                                     written (risks m)]) df |}.

(** Writing a sheet into a workbook with [if_sheet_exists='replace']: a sheet
    of that name is replaced where it stands, otherwise the sheet is added
    last (titles that differ from the name only by case, which the workbook
    library renames, are outside this model). *)
Fixpoint put_sheet (sheet_name : string) (sh : sheet) (xl : list (string * sheet))
  : list (string * sheet) :=
  match xl with
  | [] => [(sheet_name, sh)]
  | (n, old) :: rest =>
      if String.eqb n sheet_name then (n, sh) :: rest
      else (n, old) :: put_sheet sheet_name sh rest
  end.

(** [save_results(df, output_path, sheet_name)]: the file system afterwards
    and the lines printed. Of the failures of writing only the one of opening
    an existing file that is no workbook is modelled. *)
Definition save_results (df : list risk_match) (output_path : Path)
    (sheet_name : string) (fs : gmap string file)
  : result (gmap string file * list string) :=
  if empty df then Ok (fs, ["No results to save."])
  else
    let! fs' :=
      match fs !! path_str output_path with
      | Some _ =>
          let! xl := ExcelFile fs output_path in
          Ok (<[path_str output_path := Workbook (put_sheet sheet_name (to_excel df) xl)]> fs)
      | None =>
          Ok (<[path_str output_path := Workbook [(sheet_name, to_excel df)]]> fs)
      end in
    Ok (fs', ["Results saved to: " ++ path_str output_path]).

(** The keywords of the program. *)
Definition RISK_KEYWORDS : list string :=
  [ "High TRQ"; "Torque"; "Stuck"; "String vibration"; "Mud loss"; "Mud gain";
    "Drag"; "String installation"; "String running"; "Washout";
    "Hole problems"; "Differential sticking"; "Pack-off"; "Kick";
    "Well control" ].

(** ** Vocabulary of the statements *)

(** [sub] occurs in [s]. *)
Definition is_substring (sub s : string) : Prop :=
  exists pre post, s = pre ++ sub ++ post.

(** The test of [search_keywords] on one keyword. *)
Definition keyword_matches (text kw : string) : bool :=
  PyStr.contains (PyStr.lower kw) (PyStr.lower text).

(** The result row of one operation: none when no keyword matches. *)
Definition risk_match_of (report : string) (keywords : list string) (op : operation)
  : list risk_match :=
  match search_keywords (details op) keywords with
  | [] => []
  | matched =>
      [{| report_number := report;
          match_time_date := time_date op;
          risks := PyStr.join ", " matched |}]
  end.

(** [target] occurs in [s] up to the case of the letters. *)
Definition contains_ignoring_case (target s : string) : Prop :=
  exists sub, is_substring sub s /\ PyStr.lower sub = PyStr.lower target.

(** A cell that is a string in which the header text occurs, whatever the
    case. *)
Definition holds_header (v : cell) : Prop :=
  exists s, v = CStr s /\ contains_ignoring_case "DETAILS OF OPERATIONS" s.

(** The cell at a position inside the frame. *)
Definition cell_at (df : DataFrame) (row_idx col_idx : nat) : cell :=
  match rows df !! row_idx with
  | Some row => default CEmpty (row !! col_idx)
  | None => CEmpty
  end.

(** Row-major order on positions. *)
Definition scanned_before (r' c' r c : nat) : Prop :=
  r' < r \/ (r' = r /\ c' < c).

(** The first value a function gives along a list. *)
Fixpoint first_some {A R : Type} (g : A -> option R) (xs : list A) : option R :=
  match xs with
  | [] => None
  | x :: rest =>
      match g x with
      | Some v => Some v
      | None => first_some g rest
      end
  end.

(** The header row of a column: the first of the first 100 rows whose cell
    in that column holds the header text. *)
Definition header_row_of (df : DataFrame) (pos : nat) : option nat :=
  first_some (fun r => if is_operations_header (cell_at df r pos) then Some r else None)
             (range (min 100 (len df))).

(** What one row contributes to the operations: nothing when its narrative
    cell is skipped, else one entry made of its first two cells. *)
Definition operation_of_row (pos : nat) (row : list cell) : list operation :=
  match narrative (default CEmpty (row !! pos)) with
  | None => []
  | Some text =>
      [{| time_date := format_time (default CEmpty (row !! 0)) (default CEmpty (row !! 1));
          details := text |}]
  end.

(** The same in a frame of any width: with a single column the second time
    cell cannot be read. *)
Definition row_result (df : DataFrame) (pos : nat) (row : list cell)
  : result (list operation) :=
  match operation_of_row pos row with
  | [] => Ok []
  | ops => if (2 <=? columns df)%nat then Ok ops else Raise (IndexError 1 (columns df))
  end.

(** The contributions of the rows, in order, up to the first exception. *)
Fixpoint collect {A B : Type} (f : A -> result (list B)) (l : list A)
  : result (list B) :=
  match l with
  | [] => Ok []
  | x :: rest =>
      let! ys := f x in
      let! more := collect f rest in
      Ok (ys ++ more)%list
  end.

(** A frame with other rows. *)
Definition with_rows (df : DataFrame) (l : list (list cell)) : DataFrame :=
  {| columns := columns df; rows := l |}.

(** A narrative cell the segmenter skips: missing, not a string, or a
    string of whitespace only (the empty string included). *)
Definition skipped (v : cell) : Prop :=
  match v with
  | CStr s => PyStr.all_chars PyStr.is_space s = true
  | _ => True
  end.

(** A cell that is present and not a timestamp. *)
Definition is_plain (v : cell) : Prop :=
  match v with
  | CStr _ | CPlain _ => True
  | _ => False
  end.

(** How a present cell shows as the start and as the end of a time range. *)
Definition shown_as_start (v : cell) : string :=
  match v with
  | CEmpty => ""
  | CStr s => s
  | CTimestamp t => strftime_date_time t
  | CPlain repr => repr
  end.

Definition shown_as_end (v : cell) : string :=
  match v with
  | CEmpty => ""
  | CStr s => s
  | CTimestamp t => strftime_time t
  | CPlain repr => repr
  end.

(** [s] does not begin with a character of the class [p]. *)
Definition no_leading (p : ascii -> bool) (s : string) : Prop :=
  match s with
  | String c _ => p c = false
  | EmptyString => True
  end.

(** What the part of the pattern before the group matches: [DDR] in any
    case, spaces, at most one [#], spaces; or [#] and spaces. *)
Definition is_number_prefix (sep : string) : Prop :=
  (exists tag ws1 hash ws2,
      sep = tag ++ ws1 ++ hash ++ ws2 /\ PyStr.lower tag = "ddr" /\
      PyStr.all_chars PyStr.is_space ws1 = true /\ (hash = "" \/ hash = "#") /\
      PyStr.all_chars PyStr.is_space ws2 = true)
  \/ (exists ws, sep = "#" ++ ws /\ PyStr.all_chars PyStr.is_space ws = true).

(** The pattern matches at the start of [s] and its group is [ds]: a prefix
    as above, then the digits [ds], as many as there are. *)
Definition number_at_start (s ds : string) : Prop :=
  exists sep rest,
    s = sep ++ ds ++ rest /\ is_number_prefix sep /\ ds <> "" /\
    PyStr.all_chars PyStr.is_digit ds = true /\ no_leading PyStr.is_digit rest.

(** [ds] is the group of the leftmost match of the pattern in [s]. *)
Definition first_number (s ds : string) : Prop :=
  exists pre s',
    s = pre ++ s' /\ number_at_start s' ds /\
    forall p1 p2 ds', pre = p1 ++ p2 -> p2 <> "" -> ~ number_at_start (p2 ++ s') ds'.

(** The pattern matches nowhere in [s]. *)
Definition no_number (s : string) : Prop :=
  forall pre s' ds, s = pre ++ s' -> ~ number_at_start s' ds.

(** The rows one file adds to the result table: none when processing it
    raises. *)
Definition rows_of_file (fs : gmap string file) (keywords : list string)
    (filepath : Path) : list risk_match :=
  match process_ddr_file fs filepath keywords with
  | Ok results => results
  | Raise _ => []
  end.

(** The lines one file adds to the console. *)
Definition lines_of_file (fs : gmap string file) (keywords : list string)
    (filepath : Path) : list string :=
  [ "Processing: " ++ name filepath;
    match process_ddr_file fs filepath keywords with
    | Ok results => "  Found " ++ PyStr.str_nat (length results) ++ " risk entries"
    | Raise e => "  Error processing file: " ++ str_exception e
    end ].

(** ** Sample data *)

Definition sample_header : cell :=
  CStr "Details of Operations in Sequence and Remarks".

Definition six_o_clock : timestamp :=
  {| year := 2024; month := 3; day := 5; hour := 6; minute := 0 |}.

Definition half_past_seven : timestamp :=
  {| year := 2024; month := 3; day := 5; hour := 7; minute := 30 |}.

(** A sheet with the times in its first two columns and the narrative in
    the third. *)
Definition sample_frame : DataFrame :=
  {| columns := 3;
     rows :=
       [ [CStr "Report"; CEmpty; CEmpty];
         [CStr "TIME"; CEmpty; sample_header];
         [CStr "FROM"; CStr "TO"; CEmpty];
         [CTimestamp six_o_clock; CTimestamp half_past_seven;
          CStr "Observed high torque and signs of stuck pipe"];
         [CEmpty; CTimestamp half_past_seven; CStr "Circulate, mud loss 5 bbl"];
         [CPlain "7.5"; CPlain "8.25"; CStr "   "];
         [CEmpty; CPlain "8.25"; CStr "Kick drill"];
         [CStr "TOTAL"; CPlain "24"; CEmpty];
         [CPlain "08:15:00"; CPlain "09:00:00"; CStr "Run in hole"] ] |}.

(** A sheet whose only narrative row has a start time and no end time. *)
Definition open_ended_frame : DataFrame :=
  {| columns := 3;
     rows :=
       [ [CStr "FROM"; CStr "TO"; sample_header];
         [CEmpty; CEmpty; CEmpty];
         [CPlain "08:15:00"; CEmpty; CStr "Run in hole"] ] |}.

(** A sheet of one column: the header and a narrative below it. *)
Definition narrow_frame : DataFrame :=
  {| columns := 1;
     rows := [ [sample_header]; [CEmpty]; [CStr "Stuck pipe at 900 m"] ] |}.

Definition sample_path : Path := {| parent := "input-sheets"; name := "DDR #42.xlsx" |}.

Definition sample_fs : gmap string file :=
  {[ "input-sheets/DDR #42.xlsx" := Workbook [("Sheet1", Sheet sample_frame)] ]}.

(** A folder in which one file is no workbook and one holds a sheet of a
    single column, listed before and after a good workbook. *)
Definition mixed_folder : Folder :=
  {| folder_path := "input-sheets";
     entries := ["broken.xlsx"; "notes.txt"; "DDR #42.xlsx"; "narrow.xlsx"; "DDR 7.xls"] |}.

Definition mixed_fs : gmap string file :=
  <[ "input-sheets/broken.xlsx" := NotWorkbook "File is not a zip file" ]>
  (<[ "input-sheets/narrow.xlsx" := Workbook [("Sheet1", Sheet narrow_frame)] ]>
  (<[ "input-sheets/DDR 7.xls" :=
        Workbook [("Cover", Sheet {| columns := 1; rows := [[CStr "Cover page"]] |});
                  ("Ops", Sheet open_ended_frame)] ]>
   sample_fs)).

(** ** Sheets of a workbook *)

(** What one sheet adds to the rows of a file: the rows of its operations,
    none when it has no header; an exception when reading it or segmenting
    it raises. *)
Definition sheet_matches (fs : gmap string file) (filepath : Path)
    (keywords : list string) (sheet_name : string) : result (list risk_match) :=
  let! df := read_excel fs filepath sheet_name in
  let! ops_col := find_operations_column df in
  if (ops_col =? -1)%Z then Ok []
  else
    let! operations := find_operations_data df ops_col in
    Ok (flat_map (risk_match_of (extract_report_number filepath) keywords) operations).

(** A sheet with the narrative in its fourth column. *)
Definition night_frame : DataFrame :=
  {| columns := 4;
     rows :=
       [ [CStr "FROM"; CStr "TO"; CStr "HRS";
          CStr "DETAILS OF OPERATIONS IN SEQUENCE AND REMARKS"];
         [CEmpty; CEmpty; CEmpty; CEmpty];
         [CPlain "22:00:00"; CPlain "23:30:00"; CPlain "1.5";
          CStr "Tight hole, drag 40 klb and pack-off"];
         [CPlain "23:30:00"; CEmpty; CPlain "0.5"; CStr "Circulate bottoms up"] ] |}.

(** A workbook of three sheets, the second without the header. *)
Definition three_sheet_fs : gmap string file :=
  {[ "input-sheets/DDR #42.xlsx" :=
       Workbook [("Day", Sheet sample_frame);
                 ("Cover", Sheet {| columns := 2; rows := [[CStr "Cover page"; CEmpty]] |});
                 ("Night", Sheet night_frame)] ]}.

(** ** Vocabulary of the further properties *)

(** A row of the result table as a file produces it: tagged with the
    report number of the file, its risks the keywords of a non-empty
    subsequence of the keyword list joined with ", ". *)
Definition tagged_row (report : string) (keywords : list string) (m : risk_match)
  : Prop :=
  report_number m = report /\
  exists matched, matched <> [] /\ sublist matched keywords /\
                  risks m = PyStr.join ", " matched.

(** A character that is no digit. *)
Definition not_digit (c : ascii) : bool := negb (PyStr.is_digit c).

(** A workbook of two sheets, the first without the header. *)
Definition two_sheet_fs : gmap string file :=
  {[ "input-sheets/DDR 7.xls" :=
       Workbook [("Cover", Sheet {| columns := 2; rows := [[CStr "Cover page"; CEmpty]] |});
                 ("Ops", Sheet open_ended_frame)] ]}.

(** A workbook whose second sheet cannot be read. *)
Definition damaged_fs : gmap string file :=
  {[ "input-sheets/DDR #42.xlsx" :=
       Workbook [("Sheet1", Sheet sample_frame); ("Sheet2", BadSheet "Bad zip entry")] ]}.

(** A workbook without the header in any sheet. *)
Definition cover_fs : gmap string file :=
  {[ "input-sheets/DDR #42.xlsx" :=
       Workbook [("Cover", Sheet {| columns := 2; rows := [[CStr "Cover page"; CEmpty]] |});
                 ("Empty", Sheet {| columns := 0; rows := [] |})] ]}.

(** * Properties *)

Example lower_stuck : PyStr.lower "STUCK pipe" = "stuck pipe".
Proof. reflexivity. Qed.

Example strip_blank : PyStr.strip "  a b  " = "a b".
Proof. reflexivity. Qed.

Example join_two : PyStr.join ", " ["Torque"; "Stuck"] = "Torque, Stuck".
Proof. reflexivity. Qed.

Example zfill_five : PyStr.zfill 2 5 = "05".
Proof. reflexivity. Qed.

(** ** Strings *)

Section Strings.

Import PyStr.

Lemma append_nil_r (s : string) : s ++ "" = s.
Proof. induction s as [|c s IH]; simpl; [done | by rewrite IH]. Qed.

Lemma append_assoc (a b c : string) : (a ++ b) ++ c = a ++ b ++ c.
Proof. induction a as [|x a IH]; simpl; [done | by rewrite IH]. Qed.

Lemma append_eq_nil (a b : string) : a ++ b = "" -> a = "" /\ b = "".
Proof. destruct a; simpl; [done | discriminate]. Qed.

Lemma map_chars_append f (a b : string) :
  map_chars f (a ++ b) = map_chars f a ++ map_chars f b.
Proof. induction a as [|x a IH]; simpl; [done | by rewrite IH]. Qed.

Lemma startswith_spec (p s : string) :
  startswith p s = true <-> exists rest, s = p ++ rest.
Proof.
  revert s; induction p as [|a p IH]; intros s; simpl.
  - split; [intros _; by exists s | done].
  - destruct s as [|b s].
    + split; [discriminate | intros [rest H]; discriminate].
    + destruct (ascii_dec a b) as [->|Hab].
      * rewrite IH. split; intros [rest H]; exists rest.
        -- by rewrite H.
        -- by injection H.
      * split; [discriminate | intros [rest H]; injection H; congruence].
Qed.

Lemma contains_spec (sub s : string) :
  contains sub s = true <-> is_substring sub s.
Proof.
  unfold is_substring.
  induction s as [|c s IH]; simpl; rewrite orb_true_iff, startswith_spec.
  - split.
    + intros [[rest H]|H]; [|discriminate]. by exists "", rest.
    + intros (pre & post & H). left. symmetry in H.
      apply append_eq_nil in H as [-> H]. by exists post.
  - rewrite IH. split.
    + intros [[rest H]|(pre & post & H)].
      * by exists "", rest.
      * exists (String c pre), post. simpl. by rewrite H.
    + intros ([|x pre] & post & H); simpl in H.
      * left. by exists post.
      * right. injection H as _ H. by exists pre, post.
Qed.

Lemma is_substring_map_chars f (sub s : string) :
  is_substring sub s -> is_substring (map_chars f sub) (map_chars f s).
Proof.
  intros (pre & post & ->). exists (map_chars f pre), (map_chars f post).
  by rewrite !map_chars_append.
Qed.

Lemma is_substring_trans (a b c : string) :
  is_substring a b -> is_substring b c -> is_substring a c.
Proof.
  intros (p1 & q1 & ->) (p2 & q2 & ->).
  exists (p2 ++ p1), (q1 ++ q2). by rewrite !append_assoc.
Qed.

End Strings.

(** ** The keyword matcher *)

Lemma search_keywords_loop (f : string -> bool) (keywords acc : list string) :
  fold_left (fun matched kw => if f kw then (matched ++ [kw])%list else matched)
            keywords acc
  = (acc ++ List.filter f keywords)%list.
Proof.
  revert acc; induction keywords as [|kw keywords IH]; intros acc; simpl.
  - by rewrite app_nil_r.
  - rewrite IH. destruct (f kw); [|done]. by rewrite <- app_assoc.
Qed.

Lemma search_keywords_filter (text : string) (keywords : list string) :
  search_keywords text keywords = List.filter (keyword_matches text) keywords.
Proof. unfold search_keywords. by rewrite search_keywords_loop. Qed.

(** C1. A keyword is in the result of [search_keywords] exactly when it is
    one of the keywords and its lower-cased form occurs in the lower-cased
    narrative; so any narrative in which "STUCK pipe" occurs matches the
    keyword "Stuck". *)
Theorem search_keywords_case_insensitive_substring :
  (forall (text : string) (keywords : list string) (kw : string),
      In kw (search_keywords text keywords) <->
      In kw keywords /\ is_substring (PyStr.lower kw) (PyStr.lower text))
  /\ (forall (text : string) (keywords : list string),
         is_substring "STUCK pipe" text -> In "Stuck" keywords ->
         In "Stuck" (search_keywords text keywords)).
Proof.
  assert (Hiff : forall text keywords kw,
             In kw (search_keywords text keywords) <->
             In kw keywords /\ is_substring (PyStr.lower kw) (PyStr.lower text)).
  { intros text keywords kw.
    rewrite search_keywords_filter, filter_In.
    unfold keyword_matches. by rewrite contains_spec. }
  split; [exact Hiff|].
  intros text keywords Hsub Hin. apply Hiff. split; [done|].
  apply is_substring_trans with (PyStr.lower "STUCK pipe").
  - by exists "", " pipe".
  - by apply is_substring_map_chars.
Qed.

Lemma search_keywords_case_insensitive_substring_witness :
  In "Stuck" (search_keywords "Found STUCK pipe at 900m" ["Torque"; "Stuck"]).
Proof.
  apply (proj2 search_keywords_case_insensitive_substring).
  - by exists "Found ", " at 900m".
  - simpl; auto.
Defined.

(** ** One workbook *)

Lemma risk_matches_loop (report : string) (keywords : list string)
    (operations : list operation) (results : list risk_match) :
  fold_left (fun results op =>
               let matched_keywords := search_keywords (details op) keywords in
               match matched_keywords with
               | [] => results
               | _ :: _ =>
                   (results ++
                      [{| report_number := report;
                          match_time_date := time_date op;
                          risks := PyStr.join ", " matched_keywords |}])%list
               end)
            operations results
  = (results ++ flat_map (risk_match_of report keywords) operations)%list.
Proof.
  revert results; induction operations as [|op operations IH]; intros results; simpl.
  - by rewrite app_nil_r.
  - rewrite IH. unfold risk_match_of at 2.
    destruct (search_keywords (details op) keywords); simpl; [done|].
    by rewrite <- app_assoc.
Qed.

Lemma process_single_sheet (fs : gmap string file) (filepath : Path)
    (keywords : list string) (sheet_name : string) (df : DataFrame)
    (ops_col : Z) (operations : list operation) :
  fs !! path_str filepath = Some (Workbook [(sheet_name, Sheet df)]) ->
  find_operations_column df = Ok ops_col -> ops_col <> (-1)%Z ->
  find_operations_data df ops_col = Ok operations ->
  process_ddr_file fs filepath keywords
  = Ok (flat_map (risk_match_of (extract_report_number filepath) keywords) operations).
Proof.
  intros Hfile Hcol Hfound Hdata.
  unfold process_ddr_file, read_excel, ExcelFile. rewrite Hfile. simpl.
  rewrite String.eqb_refl. cbn [bind]. rewrite Hcol. cbn [bind].
  apply Z.eqb_neq in Hfound as ->. rewrite Hdata. cbn [bind].
  by rewrite risk_matches_loop.
Qed.

(** ** Loops *)

Section Loops.

Context {A R : Type}.

Lemma for_return_pure (g : A -> option R) (body : A -> result (option R))
    (xs : list A) :
  (forall x, In x xs -> body x = Ok (g x)) ->
  for_return xs body = Ok (first_some g xs).
Proof.
  induction xs as [|x xs IH]; intros Hbody; simpl; [done|].
  rewrite (Hbody x) by (by left). simpl.
  destruct (g x); [done|]. apply IH. intros y Hy. apply Hbody. by right.
Qed.

Lemma first_some_seq_Some (g : nat -> option R) (a n : nat) (v : R) :
  first_some g (seq a n) = Some v ->
  exists i, a <= i < a + n /\ g i = Some v /\ forall j, a <= j < i -> g j = None.
Proof.
  revert a; induction n as [|n IH]; intros a; simpl; [discriminate|].
  destruct (g a) eqn:Ha.
  - intros [= <-]. exists a. split; [lia|]. split; [done|]. intros j Hj; lia.
  - intros H. apply IH in H as (i & Hi & Hgi & Hbefore).
    exists i. split; [lia|]. split; [done|].
    intros j Hj. destruct (decide (j = a)) as [->|]; [done|].
    apply Hbefore; lia.
Qed.

Lemma first_some_seq_None (g : nat -> option R) (a n : nat) :
  first_some g (seq a n) = None -> forall i, a <= i < a + n -> g i = None.
Proof.
  revert a; induction n as [|n IH]; intros a; simpl; [intros _ i Hi; lia|].
  destruct (g a) eqn:Ha; [discriminate|].
  intros H i Hi. destruct (decide (i = a)) as [->|]; [done|].
  apply (IH _ H); lia.
Qed.

End Loops.

(** ** Case *)

Section Case.

Import PyStr.

Lemma lower_upper_char (c : ascii) : lower_char (upper_char c) = lower_char c.
Proof. destruct c as [[] [] [] [] [] [] [] []]; reflexivity. Qed.

Lemma upper_lower_char (c : ascii) : upper_char (lower_char c) = upper_char c.
Proof. destruct c as [[] [] [] [] [] [] [] []]; reflexivity. Qed.

Lemma lower_upper (s : string) : lower (upper s) = lower s.
Proof.
  unfold lower, upper. induction s as [|c s IH]; simpl; [done|].
  by rewrite lower_upper_char, IH.
Qed.

Lemma upper_lower (s : string) : upper (lower s) = upper s.
Proof.
  unfold lower, upper. induction s as [|c s IH]; simpl; [done|].
  by rewrite upper_lower_char, IH.
Qed.

Lemma map_chars_append_inv f (s a b : string) :
  map_chars f s = a ++ b ->
  exists s1 s2, s = s1 ++ s2 /\ map_chars f s1 = a /\ map_chars f s2 = b.
Proof.
  revert s; induction a as [|x a IH]; intros s H; simpl in H.
  - by exists "", s.
  - destruct s as [|c s]; simpl in H; [discriminate|].
    injection H as Hc H. apply IH in H as (s1 & s2 & -> & H1 & H2).
    exists (String c s1), s2. simpl. by rewrite Hc, H1.
Qed.

(** The test [target in s.upper()] for a target in upper case. *)
Lemma contains_upper_spec (target s : string) :
  upper target = target ->
  contains target (upper s) = true <-> contains_ignoring_case target s.
Proof.
  intros Htarget. rewrite contains_spec. unfold contains_ignoring_case. split.
  - intros (pre & post & H).
    apply map_chars_append_inv in H as (s1 & s2 & -> & _ & H).
    apply map_chars_append_inv in H as (sub & s3 & -> & Hsub & _).
    exists sub. split; [by exists s1, s3|].
    rewrite <- (lower_upper sub). unfold upper. by rewrite Hsub.
  - intros (sub & (pre & post & ->) & Hcase).
    assert (upper sub = target) as Hsub
      by (by rewrite <- (upper_lower sub), Hcase, upper_lower).
    exists (upper pre), (upper post). unfold upper in *.
    by rewrite !map_chars_append, Hsub.
Qed.

End Case.

(** ** The header locator *)

Lemma is_operations_header_spec (v : cell) :
  is_operations_header v = true <-> holds_header v.
Proof.
  unfold holds_header. destruct v as [|s|t|repr]; simpl.
  - split; [discriminate | by intros (s & ? & _)].
  - rewrite contains_upper_spec by reflexivity. split.
    + intros H. by exists s.
    + by intros (s' & [= <-] & H).
  - split; [discriminate | by intros (s & ? & _)].
  - split; [discriminate | by intros (s & ? & _)].
Qed.

Lemma column_position_inside (df : DataFrame) (c : nat) :
  c < columns df -> column_position df (Z.of_nat c) = Ok c.
Proof.
  intros Hc. unfold column_position.
  replace (0 <=? Z.of_nat c)%Z with true by (symmetry; apply Z.leb_le; lia).
  replace (Z.of_nat c <? Z.of_nat (columns df))%Z with true
    by (symmetry; apply Z.ltb_lt; lia).
  simpl. by rewrite Nat2Z.id.
Qed.

Lemma iloc_inside (df : DataFrame) (r c : nat) :
  r < len df -> c < columns df -> iloc df r (Z.of_nat c) = Ok (cell_at df r c).
Proof.
  intros Hr Hc. unfold iloc, cell_at, len in *.
  destruct (rows df !! r) as [row|] eqn:Hrow.
  - by rewrite column_position_inside.
  - apply lookup_ge_None in Hrow. lia.
Qed.

Lemma iloc_Ok_inv (df : DataFrame) (r c : nat) (v : cell) :
  iloc df r (Z.of_nat c) = Ok v ->
  r < len df /\ c < columns df /\ v = cell_at df r c.
Proof.
  intros H. assert (r < len df) as Hr.
  { unfold iloc in H. destruct (rows df !! r) eqn:Hrow; [|discriminate].
    by apply lookup_lt_Some in Hrow. }
  assert (c < columns df) as Hc.
  { unfold iloc, column_position in H. destruct (rows df !! r); [|discriminate].
    destruct (Z.ltb_spec (Z.of_nat c) (Z.of_nat (columns df))); [lia|].
    destruct (Z.ltb_spec (Z.of_nat c) 0); [lia|].
    rewrite !andb_false_r in H. discriminate. }
  rewrite iloc_inside in H by done. by injection H.
Qed.

(** The cell test of the two nested loops, as a function of the position. *)
Lemma find_operations_column_scan (df : DataFrame) :
  find_operations_column df
  = Ok (default (-1)%Z
          (first_some
             (fun r => first_some
                         (fun c => if is_operations_header (cell_at df r c)
                                   then Some (Z.of_nat c) else None)
                         (range (columns df)))
             (range (min 100 (len df))))).
Proof.
  unfold find_operations_column.
  set (g := fun r => first_some
                       (fun c => if is_operations_header (cell_at df r c)
                                 then Some (Z.of_nat c) else None)
                       (range (columns df))).
  rewrite (for_return_pure g).
  - simpl. by destruct (first_some g _).
  - intros r Hr. apply in_seq in Hr.
    apply for_return_pure. intros c Hc. apply in_seq in Hc.
    rewrite iloc_inside by lia. simpl.
    by destruct (is_operations_header _).
Qed.

(** C4. [find_operations_column] never raises and leaves the frame as it is
    (it only reads it). It returns the column of the first cell, in row-major
    order over the first 100 rows (all rows if fewer) and all columns, that
    is a string in which the header text occurs whatever the case; it
    returns -1 when no such cell exists. Cells that are not strings are passed
    over. *)
Theorem find_operations_column_first_in_scan_order (df : DataFrame) :
  (exists r c v,
      r < min 100 (len df) /\
      iloc df r (Z.of_nat c) = Ok v /\ holds_header v /\
      (forall r' c' v', scanned_before r' c' r c ->
                        iloc df r' (Z.of_nat c') = Ok v' -> ~ holds_header v') /\
      find_operations_column df = Ok (Z.of_nat c))
  \/ ((forall r c v, r < min 100 (len df) ->
                     iloc df r (Z.of_nat c) = Ok v -> ~ holds_header v) /\
      find_operations_column df = Ok (-1)%Z).
Proof.
  rewrite find_operations_column_scan.
  destruct (first_some _ (range (min 100 (len df)))) as [z|] eqn:Hscan.
  - left. apply first_some_seq_Some in Hscan as (r & Hr & Hrow & Habove).
    apply first_some_seq_Some in Hrow as (c & Hc & Hcell & Hleft).
    destruct (is_operations_header (cell_at df r c)) eqn:Hhdr; [|discriminate].
    injection Hcell as <-.
    exists r, c, (cell_at df r c).
    split; [lia|]. split; [apply iloc_inside; lia|].
    split; [by apply is_operations_header_spec|]. split; [|done].
    intros r' c' v' Hbefore Hv' Hheader.
    apply iloc_Ok_inv in Hv' as (_ & Hc' & ->).
    apply is_operations_header_spec in Hheader.
    destruct Hbefore as [Hlt|[-> Hlt]].
    + specialize (Habove r' ltac:(lia)).
      apply first_some_seq_None with (i := c') in Habove; [|lia].
      by rewrite Hheader in Habove.
    + specialize (Hleft c' ltac:(lia)). by rewrite Hheader in Hleft.
  - right. split; [|done].
    intros r c v Hr Hv Hheader.
    apply iloc_Ok_inv in Hv as (_ & Hc & ->).
    apply is_operations_header_spec in Hheader.
    apply first_some_seq_None with (i := r) in Hscan; [|lia].
    apply first_some_seq_None with (i := c) in Hscan; [|lia].
    by rewrite Hheader in Hscan.
Qed.

(** ** The row segmenter *)

Lemma column_position_lt (df : DataFrame) (col : Z) (pos : nat) :
  column_position df col = Ok pos -> pos < columns df.
Proof.
  unfold column_position.
  destruct (Z.leb_spec 0 col), (Z.ltb_spec col (Z.of_nat (columns df))); simpl;
    try (intros [= <-]; lia);
    destruct (Z.leb_spec (- Z.of_nat (columns df)) col), (Z.ltb_spec col 0); simpl;
    try discriminate; intros [= <-]; lia.
Qed.

Lemma column_position_with_rows (df : DataFrame) (l : list (list cell)) (col : Z) :
  column_position (with_rows df l) col = column_position df col.
Proof. reflexivity. Qed.

Lemma iloc_at (df : DataFrame) (r : nat) (col : Z) (pos : nat) :
  column_position df col = Ok pos -> r < len df ->
  iloc df r col = Ok (cell_at df r pos).
Proof.
  intros Hpos Hr. unfold iloc, cell_at, len in *.
  destruct (rows df !! r) as [row|] eqn:Hrow.
  - by rewrite Hpos.
  - apply lookup_ge_None in Hrow. lia.
Qed.

Lemma iloc_Ok_position (df : DataFrame) (r : nat) (col : Z) (v : cell) :
  iloc df r col = Ok v ->
  exists pos, column_position df col = Ok pos /\ r < len df /\ v = cell_at df r pos.
Proof.
  unfold iloc, cell_at, len. intros H.
  destruct (rows df !! r) as [row|] eqn:Hrow; [|discriminate].
  destruct (column_position df col) as [pos|] eqn:Hpos; [|discriminate].
  injection H as <-. exists pos. split; [done|]. split; [|done].
  by apply lookup_lt_Some in Hrow.
Qed.

Lemma find_header_row_closed (df : DataFrame) (ops_col : Z) (pos : nat) :
  column_position df ops_col = Ok pos ->
  find_header_row df ops_col = Ok (header_row_of df pos).
Proof.
  intros Hpos. unfold find_header_row, header_row_of.
  apply for_return_pure. intros r Hr. apply in_seq in Hr.
  rewrite (iloc_at _ _ _ _ Hpos) by lia. simpl.
  by destruct (is_operations_header _).
Qed.

Lemma find_header_row_Some_position (df : DataFrame) (ops_col : Z) (h : nat) :
  find_header_row df ops_col = Ok (Some h) ->
  exists pos, column_position df ops_col = Ok pos.
Proof.
  unfold find_header_row.
  destruct (min 100 (len df)) as [|n] eqn:Hn; simpl; [discriminate|].
  destruct (iloc df 0 ops_col) as [v|] eqn:Hv; [|discriminate].
  intros _. apply iloc_Ok_position in Hv as (pos & Hpos & _). by exists pos.
Qed.

Section SegmentLoop.

Variable df : DataFrame.
Variable ops_col : Z.
Variable pos : nat.
Hypothesis Hpos : column_position df ops_col = Ok pos.

Lemma row_result_step (results : list operation) (i : nat) (row : list cell) :
  rows df !! i = Some row ->
  (let! details := iloc df i ops_col in
   match narrative details with
   | None =>
       let! col0_val := iloc df i 0 in
       if is_section_break col0_val then Ok results else Ok results
   | Some text =>
       let! time_from := iloc df i 0 in
       let! time_to := iloc df i 1 in
       Ok (results ++ [{| time_date := format_time time_from time_to;
                          details := text |}])%list
   end)
  = (let! ops := row_result df pos row in Ok (results ++ ops)%list).
Proof using Hpos.
  intros Hrow. pose proof (column_position_lt _ _ _ Hpos) as Hwidth.
  assert (column_position df 0 = Ok 0) as H0
      by (apply (column_position_inside df 0); lia).
  unfold iloc, row_result, operation_of_row.
  rewrite Hrow, Hpos, H0. cbn [bind].
  destruct (narrative (default CEmpty (row !! pos))) as [text|].
  - destruct (Nat.leb_spec 2 (columns df)) as [Hwide|Hnarrow].
    + assert (column_position df 1 = Ok 1) as ->
          by (apply (column_position_inside df 1); lia).
      reflexivity.
    + unfold column_position.
      replace (columns df) with 1 by lia. reflexivity.
  - cbn [bind]. rewrite app_nil_r. by destruct (is_section_break _).
Qed.

Lemma segment_loop (body : list operation -> nat -> result (list operation))
    (l pre : list (list cell)) (results : list operation) :
  (forall results i row, rows df !! i = Some row ->
      body results i = (let! ops := row_result df pos row in Ok (results ++ ops)%list)) ->
  rows df = (pre ++ l)%list ->
  for_each (seq (length pre) (length l)) results body
  = (let! ops := collect (row_result df pos) l in Ok (results ++ ops)%list).
Proof using Type.
  intros Hbody. revert pre results.
  induction l as [|row l IH]; intros pre results Hrows; simpl.
  - by rewrite app_nil_r.
  - rewrite (Hbody _ _ row) by (rewrite Hrows; apply list_lookup_middle; done).
    destruct (row_result df pos row) as [ops|e]; simpl; [|done].
    replace (S (length pre)) with (length (pre ++ [row])%list)
      by (rewrite length_app; simpl; lia).
    rewrite IH by (by rewrite <- app_assoc).
    destruct (collect (row_result df pos) l) as [more|e]; simpl; [|done].
    by rewrite app_assoc.
Qed.

(** The segmenter in closed form: the rows from two below the header on,
    each giving its contribution. *)
Lemma find_operations_data_closed :
  find_operations_data df ops_col
  = match header_row_of df pos with
    | None => Ok []
    | Some h => collect (row_result df pos) (drop (h + 2) (rows df))
    end.
Proof using Hpos.
  unfold find_operations_data. rewrite (find_header_row_closed _ _ _ Hpos).
  cbn [bind]. destruct (header_row_of df pos) as [h|]; [|done].
  unfold range_from, len.
  replace (length (rows df) - (h + 2)) with (length (drop (h + 2) (rows df)))
    by apply length_drop.
  destruct (decide (h + 2 <= length (rows df))) as [Hle|Hgt].
  - replace (h + 2) with (length (take (h + 2) (rows df))) at 1
      by (rewrite length_take; lia).
    rewrite (segment_loop _ (drop (h + 2) (rows df)) (take (h + 2) (rows df)) []).
    + by destruct (collect _ _).
    + intros results i row Hrow. by apply row_result_step.
    + by rewrite take_drop.
  - rewrite drop_ge by lia. reflexivity.
Qed.

End SegmentLoop.

Lemma collect_app {A B : Type} (f : A -> result (list B)) (a b : list A) :
  collect f (a ++ b)
  = (let! xs := collect f a in let! ys := collect f b in Ok (xs ++ ys)%list).
Proof.
  induction a as [|x a IH]; simpl.
  - by destruct (collect f b).
  - destruct (f x) as [ys|e]; simpl; [|done]. rewrite IH.
    destruct (collect f a) as [xs|e]; simpl; [|done].
    destruct (collect f b) as [zs|e]; simpl; [|done].
    by rewrite app_assoc.
Qed.

Lemma collect_wide (df : DataFrame) (pos : nat) (l : list (list cell)) :
  2 <= columns df ->
  collect (row_result df pos) l = Ok (flat_map (operation_of_row pos) l).
Proof.
  intros Hwide. induction l as [|row l IH]; simpl; [done|].
  rewrite IH. unfold row_result.
  destruct (operation_of_row pos row); [done|].
  by destruct (Nat.leb_spec 2 (columns df)); [|lia].
Qed.

Lemma header_row_of_Some (df : DataFrame) (pos h : nat) :
  header_row_of df pos = Some h <->
  h < min 100 (len df) /\ holds_header (cell_at df h pos) /\
  forall j, j < h -> ~ holds_header (cell_at df j pos).
Proof.
  unfold header_row_of, range. split.
  - intros H. apply first_some_seq_Some in H as (i & Hi & Hcell & Hbefore).
    destruct (is_operations_header (cell_at df i pos)) eqn:Hhdr; [|discriminate].
    injection Hcell as ->. split; [lia|].
    split; [by apply is_operations_header_spec|].
    intros j Hj Hheader. apply is_operations_header_spec in Hheader.
    specialize (Hbefore j ltac:(lia)). by rewrite Hheader in Hbefore.
  - intros (Hh & Hheader & Hbefore).
    destruct (first_some _ (seq 0 (min 100 (len df)))) as [i|] eqn:Hscan.
    + apply first_some_seq_Some in Hscan as (i' & Hi & Hcell & Hnone).
      destruct (is_operations_header (cell_at df i' pos)) eqn:Hhdr; [|discriminate].
      injection Hcell as ->.
      destruct (Nat.lt_total i h) as [Hlt|[->|Hgt]]; [|done|].
      * apply is_operations_header_spec in Hhdr. by destruct (Hbefore i Hlt).
      * specialize (Hnone h ltac:(lia)).
        apply is_operations_header_spec in Hheader. by rewrite Hheader in Hnone.
    + apply first_some_seq_None with (i := h) in Hscan; [|lia].
      apply is_operations_header_spec in Hheader. by rewrite Hheader in Hscan.
Qed.

Lemma header_row_of_None (df : DataFrame) (pos : nat) :
  header_row_of df pos = None <->
  forall r, r < min 100 (len df) -> ~ holds_header (cell_at df r pos).
Proof.
  split.
  - intros H r Hr Hheader. apply is_operations_header_spec in Hheader.
    apply first_some_seq_None with (i := r) in H; [|lia].
    by rewrite Hheader in H.
  - intros Hnone. destruct (header_row_of df pos) as [h|] eqn:Hh; [|done].
    apply header_row_of_Some in Hh as (Hlt & Hheader & _).
    by destruct (Hnone h Hlt).
Qed.

(** C7, as the code has it. In a frame of at least two columns, for a valid
    operations column: when the header row is [h] (the first of the first 100
    rows whose cell in that column holds the header text), the operations
    are what the rows from [h + 2] on contribute, in row order, one entry per
    narrative row and none per skipped row; when none of the first 100 rows
    holds the header text in that column, there are no operations. *)
Theorem segmenter_reads_from_two_below_header
    (df : DataFrame) (ops_col : Z) (pos : nat) :
  column_position df ops_col = Ok pos ->
  2 <= columns df ->
  (forall h,
      h < min 100 (len df) ->
      holds_header (cell_at df h pos) ->
      (forall j, j < h -> ~ holds_header (cell_at df j pos)) ->
      find_operations_data df ops_col
      = Ok (flat_map (operation_of_row pos) (drop (h + 2) (rows df))))
  /\ ((forall r, r < min 100 (len df) -> ~ holds_header (cell_at df r pos)) ->
      find_operations_data df ops_col = Ok []).
Proof.
  intros Hpos Hwide. rewrite (find_operations_data_closed _ _ _ Hpos). split.
  - intros h Hh Hheader Hbefore.
    assert (header_row_of df pos = Some h) as ->
        by (by apply header_row_of_Some).
    by apply collect_wide.
  - intros Hnone. by apply header_row_of_None in Hnone as ->.
Qed.

Lemma segmenter_reads_from_two_below_header_witness :
  find_operations_data sample_frame 2
  = Ok (flat_map (operation_of_row 2) (drop 3 (rows sample_frame))).
Proof.
  refine (proj1 (segmenter_reads_from_two_below_header sample_frame 2 2 _ _) 1 _ _ _).
  - reflexivity.
  - simpl; lia.
  - simpl; lia.
  - apply is_operations_header_spec. reflexivity.
  - intros j Hj Hheader. apply is_operations_header_spec in Hheader.
    assert (j = 0) as -> by lia. discriminate.
Defined.

(** C7 as stated fails on a sheet of one column: the header is found at row
    0 of column 0 and row 2 holds a narrative, yet reading the second time
    cell raises and no operation is returned. *)
Lemma segmenter_single_column_raises :
  find_operations_column narrow_frame = Ok 0%Z
  /\ find_header_row narrow_frame 0 = Ok (Some 0)
  /\ (let! v := iloc narrow_frame 2 0 in Ok (narrative v))
     = Ok (Some "Stuck pipe at 900 m")
  /\ find_operations_data narrow_frame 0 = Raise (IndexError 1 1)
  /\ ~ exists operations, find_operations_data narrow_frame 0 = Ok operations.
Proof.
  repeat split; try reflexivity.
  intros (operations & H). discriminate.
Qed.

(** ** Blank narratives *)

Section Blank.

Import PyStr.

Lemma lstrip_all_space (s : string) :
  all_chars is_space (lstrip s) = all_chars is_space s.
Proof.
  induction s as [|c s IH]; simpl; [done|].
  destruct (is_space c) eqn:Hc; simpl; [done|]. by rewrite Hc.
Qed.

Lemma rstrip_empty (s : string) :
  rstrip s = "" <-> all_chars is_space s = true.
Proof.
  induction s as [|c s IH]; simpl; [done|].
  rewrite andb_true_iff, <- IH.
  destruct (rstrip s); destruct (is_space c); split; try done; by intros [? ?].
Qed.

Lemma strip_empty (s : string) :
  strip s = "" <-> all_chars is_space s = true.
Proof. unfold strip. by rewrite rstrip_empty, lstrip_all_space. Qed.

End Blank.

Lemma narrative_None (v : cell) : narrative v = None <-> skipped v.
Proof.
  destruct v as [|s|t|repr]; simpl; try done.
  rewrite <- strip_empty.
  destruct (String.eqb_spec (PyStr.strip s) ""); split; done.
Qed.

Lemma narrative_Some (v : cell) (text : string) :
  narrative v = Some text <-> v = CStr text /\ ~ skipped (CStr text).
Proof.
  destruct v as [|s|t|repr]; simpl; try (split; [done | by intros [? _]]).
  rewrite <- !strip_empty.
  destruct (String.eqb_spec (PyStr.strip s) "") as [Hblank|Hfull]; split.
  - done.
  - intros [[= <-] H]. done.
  - intros [= <-]. done.
  - intros [[= <-] _]. done.
Qed.

(** ** A row below the header *)

Lemma with_rows_self (df : DataFrame) : with_rows df (rows df) = df.
Proof. by destruct df. Qed.

Lemma header_row_of_prefix (df : DataFrame) (pos h : nat)
    (pre rest rest' : list (list cell)) :
  rows df = (pre ++ rest)%list ->
  header_row_of df pos = Some h -> h < length pre ->
  header_row_of (with_rows df (pre ++ rest')) pos = Some h.
Proof.
  intros Hrows Hh Hlt.
  assert (forall r, r < length pre ->
            cell_at (with_rows df (pre ++ rest')) r pos = cell_at df r pos) as Hsame.
  { intros r Hr. unfold cell_at. simpl. rewrite Hrows.
    by rewrite !lookup_app_l by done. }
  apply header_row_of_Some in Hh as (Hh & Hheader & Hbefore).
  apply header_row_of_Some. split; [|split].
  - unfold len in *. cbn [with_rows rows]. rewrite length_app. lia.
  - by rewrite Hsame.
  - intros j Hj. rewrite Hsame by lia. by apply Hbefore.
Qed.

Section DataRows.

Variable df : DataFrame.
Variable ops_col : Z.
Variable h : nat.
Variables pre rest : list (list cell).
Hypothesis Hrows : rows df = (pre ++ rest)%list.
Hypothesis Hheader : find_header_row df ops_col = Ok (Some h).
Hypothesis Hbelow : h + 2 <= length pre.

(** Whatever follows the first rows, the operations are the contributions of
    the rows from two below the header on. *)
Lemma data_rows_closed :
  exists pos,
    column_position df ops_col = Ok pos /\
    forall rest',
      find_operations_data (with_rows df (pre ++ rest')) ops_col
      = collect (row_result df pos) (drop (h + 2) pre ++ rest').
Proof using Hrows Hheader Hbelow.
  destruct (find_header_row_Some_position _ _ _ Hheader) as (pos & Hpos).
  exists pos. split; [done|]. intros rest'.
  rewrite (find_operations_data_closed _ ops_col pos) by done.
  rewrite (find_header_row_closed _ _ _ Hpos) in Hheader.
  injection Hheader as Hh.
  rewrite (header_row_of_prefix df pos h pre rest rest') by (done || lia).
  simpl. by rewrite drop_app_le by done.
Qed.

End DataRows.

Section NarrativeRow.

Variable df : DataFrame.
Variable ops_col : Z.
Variable h : nat.
Variables pre post : list (list cell).
Variable row : list cell.
Hypothesis Hrows : rows df = (pre ++ row :: post)%list.
Hypothesis Hheader : find_header_row df ops_col = Ok (Some h).
Hypothesis Hbelow : h + 2 <= length pre.

Lemma row_cell (col : Z) (pos : nat) (v : cell) :
  column_position df col = Ok pos ->
  iloc df (length pre) col = Ok v -> v = default CEmpty (row !! pos).
Proof using Hrows.
  intros Hpos Hv. unfold iloc in Hv.
  rewrite Hrows, list_lookup_middle in Hv by done.
  rewrite Hpos in Hv. by injection Hv.
Qed.

(** A row whose narrative cell is skipped contributes nothing. *)
Lemma skipped_row_contributes_nothing (v : cell) :
  iloc df (length pre) ops_col = Ok v -> skipped v ->
  find_operations_data df ops_col
  = find_operations_data (with_rows df (pre ++ post)) ops_col.
Proof using Hrows Hheader Hbelow.
  intros Hv Hskip.
  destruct (data_rows_closed df ops_col h pre (row :: post) Hrows Hheader Hbelow)
    as (pos & Hpos & Hclosed).
  rewrite <- (with_rows_self df) at 1. rewrite Hrows, !Hclosed, !collect_app.
  apply (row_cell _ _ _ Hpos) in Hv. subst v.
  apply narrative_None in Hskip.
  assert (row_result df pos row = Ok []) as Hnothing
      by (unfold row_result, operation_of_row; by rewrite Hskip).
  simpl. rewrite Hnothing. simpl.
  destruct (collect (row_result df pos) (drop (h + 2) pre)); simpl; [|done].
  by destruct (collect (row_result df pos) post).
Qed.

(** A narrative row contributes one entry, made of its first two cells,
    after the entries of the rows above it. *)
Lemma narrative_row_emits (text : string) (time_from time_to : cell) :
  iloc df (length pre) ops_col = Ok (CStr text) -> ~ skipped (CStr text) ->
  iloc df (length pre) 0 = Ok time_from ->
  iloc df (length pre) 1 = Ok time_to ->
  exists before after,
    find_operations_data (with_rows df pre) ops_col = Ok before /\
    find_operations_data df ops_col
    = Ok (before ++ {| time_date := format_time time_from time_to;
                       details := text |} :: after)%list.
Proof using Hrows Hheader Hbelow.
  intros Hv Hfull H0 H1.
  destruct (data_rows_closed df ops_col h pre (row :: post) Hrows Hheader Hbelow)
    as (pos & Hpos & Hclosed).
  assert (2 <= columns df) as Hwide.
  { apply (iloc_Ok_inv df (length pre) 1) in H1. lia. }
  apply (row_cell _ _ _ Hpos) in Hv.
  apply (row_cell 0 0) in H0; [|apply (column_position_inside df 0); lia].
  apply (row_cell 1 1) in H1; [|apply (column_position_inside df 1); lia].
  exists (flat_map (operation_of_row pos) (drop (h + 2) pre)),
         (flat_map (operation_of_row pos) post).
  split.
  - specialize (Hclosed []). rewrite !app_nil_r in Hclosed.
    rewrite Hclosed. by apply collect_wide.
  - rewrite <- (with_rows_self df) at 1. rewrite Hrows, Hclosed.
    rewrite collect_wide by done. rewrite flat_map_app. simpl.
    unfold operation_of_row at 2. rewrite <- Hv, <- H0, <- H1.
    assert (narrative (CStr text) = Some text) as -> by (by apply narrative_Some).
    reflexivity.
Qed.

End NarrativeRow.

Lemma collect_In {A B : Type} (f : A -> result (list B)) (l : list A)
    (ys : list B) (y : B) :
  collect f l = Ok ys -> In y ys ->
  exists x xs, In x l /\ f x = Ok xs /\ In y xs.
Proof.
  revert ys; induction l as [|x l IH]; intros ys; simpl.
  - intros [= <-] [].
  - destruct (f x) as [xs|e] eqn:Hx; simpl; [|discriminate].
    destruct (collect f l) as [more|e]; simpl; [|discriminate].
    intros [= <-] Hy. apply in_app_or in Hy as [Hy|Hy].
    + exists x, xs. auto.
    + destruct (IH more eq_refl Hy) as (x' & xs' & Hin & Hfx & Hy').
      exists x', xs'. auto.
Qed.

Lemma operations_come_from_narratives (df : DataFrame) (ops_col : Z)
    (operations : list operation) (op : operation) :
  find_operations_data df ops_col = Ok operations -> In op operations ->
  exists i, iloc df i ops_col = Ok (CStr (details op))
            /\ ~ skipped (CStr (details op)).
Proof.
  intros Hdata Hop.
  destruct (find_header_row df ops_col) as [[h|]|e] eqn:Hheader.
  - destruct (find_header_row_Some_position _ _ _ Hheader) as (pos & Hpos).
    rewrite (find_operations_data_closed _ _ _ Hpos) in Hdata.
    rewrite (find_header_row_closed _ _ _ Hpos) in Hheader.
    injection Hheader as Hh. rewrite Hh in Hdata.
    destruct (collect_In _ _ _ _ Hdata Hop) as (row & ops & Hrow & Hops & Hin).
    assert (In row (rows df)) as Hrow'.
    { rewrite <- (take_drop (h + 2) (rows df)). apply in_or_app. by right. }
    apply list_elem_of_In, list_elem_of_lookup in Hrow' as (i & Hi).
    unfold row_result in Hops.
    assert (In op (operation_of_row pos row)) as Hop'.
    { destruct (operation_of_row pos row); [by injection Hops as <-|].
      destruct (2 <=? columns df)%nat; [by injection Hops as <-|discriminate]. }
    unfold operation_of_row in Hop'.
    destruct (narrative (default CEmpty (row !! pos))) as [text|] eqn:Htext;
      [|by destruct Hop'].
    destruct Hop' as [<-|[]]. simpl.
    apply narrative_Some in Htext as (Hcell & Hfull).
    exists i. split; [|done].
    rewrite (iloc_at _ _ _ _ Hpos) by (by apply lookup_lt_Some in Hi).
    unfold cell_at. by rewrite Hi, Hcell.
  - unfold find_operations_data in Hdata. rewrite Hheader in Hdata.
    injection Hdata as <-. by destruct Hop.
  - unfold find_operations_data in Hdata. by rewrite Hheader in Hdata.
Qed.

(** C3. A row below the header whose narrative cell is missing, is not a
    string, or is blank adds nothing to the output of the segmenter,
    whatever its other cells (the two time cells among them) hold: the
    output is that of the frame without the row. Every entry of the output
    has for details the narrative cell of some row, a string that is not
    blank. *)
Theorem skipped_rows_are_excluded :
  (forall (df : DataFrame) (ops_col : Z) (h : nat) (pre post : list (list cell))
          (row : list cell) (v : cell),
      rows df = (pre ++ row :: post)%list ->
      find_header_row df ops_col = Ok (Some h) ->
      h + 2 <= length pre ->
      iloc df (length pre) ops_col = Ok v -> skipped v ->
      find_operations_data df ops_col
      = find_operations_data (with_rows df (pre ++ post)) ops_col)
  /\ (forall (df : DataFrame) (ops_col : Z) (operations : list operation)
             (op : operation),
         find_operations_data df ops_col = Ok operations -> In op operations ->
         exists i, iloc df i ops_col = Ok (CStr (details op))
                   /\ ~ skipped (CStr (details op))).
Proof.
  split.
  - intros df ops_col h pre post row v Hrows Hheader Hbelow Hv Hskip.
    by apply (skipped_row_contributes_nothing df ops_col h pre post row
                Hrows Hheader Hbelow v).
  - exact operations_come_from_narratives.
Qed.

Lemma skipped_rows_are_excluded_witness :
  find_operations_data sample_frame 2%Z
  = find_operations_data
      (with_rows sample_frame
         (firstn 5 (rows sample_frame) ++ skipn 6 (rows sample_frame))%list) 2%Z.
Proof.
  refine (proj1 skipped_rows_are_excluded sample_frame 2%Z 1
            (firstn 5 (rows sample_frame)) (skipn 6 (rows sample_frame))
            [CPlain "7.5"; CPlain "8.25"; CStr "   "] (CStr "   ") _ _ _ _ _).
  - reflexivity.
  - reflexivity.
  - simpl; lia.
  - reflexivity.
  - reflexivity.
Defined.

(** ** The time string *)

Lemma format_time_both_present (time_from time_to : cell) :
  time_from <> CEmpty -> time_to <> CEmpty ->
  shown_as_start time_from <> "" ->
  format_time time_from time_to
  = shown_as_start time_from ++ " to " ++ shown_as_end time_to.
Proof.
  intros Hfrom Hto Hshown. unfold format_time.
  destruct time_from as [|s|t|repr]; [done|..]; simpl in *;
    (destruct time_to as [|s'|t'|repr']; [done|..]; simpl; try done;
     match goal with
     | |- context [String.eqb ?x ""] => by destruct (String.eqb_spec x "")
     end).
Qed.

(** C6, as the code has it. The entry of a narrative row below the header
    carries the time string of the row's first two cells: for two
    timestamps the start as date and time, " to ", and the end as time; for
    two present cells of which at least one is a plain value, when the first
    does not show as the empty string, the first as it shows, " to ", and the
    second as it shows; for two missing cells the empty string. *)
Theorem time_string_of_narrative_row :
  (forall (df : DataFrame) (ops_col : Z) (h : nat) (pre post : list (list cell))
          (row : list cell) (text : string) (time_from time_to : cell),
      rows df = (pre ++ row :: post)%list ->
      find_header_row df ops_col = Ok (Some h) ->
      h + 2 <= length pre ->
      iloc df (length pre) ops_col = Ok (CStr text) -> ~ skipped (CStr text) ->
      iloc df (length pre) 0 = Ok time_from ->
      iloc df (length pre) 1 = Ok time_to ->
      exists before after,
        find_operations_data (with_rows df pre) ops_col = Ok before /\
        find_operations_data df ops_col
        = Ok (before ++ {| time_date := format_time time_from time_to;
                           details := text |} :: after)%list)
  /\ (forall t0 t1 : timestamp,
         format_time (CTimestamp t0) (CTimestamp t1)
         = strftime_date_time t0 ++ " to " ++ strftime_time t1)
  /\ (forall time_from time_to : cell,
         time_from <> CEmpty -> time_to <> CEmpty ->
         is_plain time_from \/ is_plain time_to ->
         shown_as_start time_from <> "" ->
         format_time time_from time_to
         = shown_as_start time_from ++ " to " ++ shown_as_end time_to)
  /\ format_time CEmpty CEmpty = "".
Proof.
  split; [|split; [|split]].
  - intros df ops_col h pre post row text time_from time_to
           Hrows Hheader Hbelow Hv Hfull H0 H1.
    by apply (narrative_row_emits df ops_col h pre post row Hrows Hheader Hbelow).
  - reflexivity.
  - intros time_from time_to Hfrom Hto _ Hshown.
    by apply format_time_both_present.
  - reflexivity.
Qed.

Lemma time_string_of_narrative_row_witness :
  (exists before after,
      find_operations_data (with_rows sample_frame (firstn 8 (rows sample_frame))) 2%Z
      = Ok before /\
      find_operations_data sample_frame 2%Z
      = Ok (before ++ {| time_date := "08:15:00 to 09:00:00";
                         details := "Run in hole" |} :: after)%list)
  /\ format_time (CPlain "08:15:00") (CTimestamp half_past_seven) = "08:15:00 to 07:30".
Proof.
  split.
  - refine (proj1 time_string_of_narrative_row sample_frame 2%Z 1
              (firstn 8 (rows sample_frame)) []
              [CPlain "08:15:00"; CPlain "09:00:00"; CStr "Run in hole"]
              "Run in hole" (CPlain "08:15:00") (CPlain "09:00:00") _ _ _ _ _ _ _).
    + reflexivity.
    + reflexivity.
    + simpl; lia.
    + reflexivity.
    + simpl. discriminate.
    + reflexivity.
    + reflexivity.
  - refine (proj1 (proj2 (proj2 time_string_of_narrative_row))
              (CPlain "08:15:00") (CTimestamp half_past_seven) _ _ _ _).
    + discriminate.
    + discriminate.
    + left. exact I.
    + simpl. discriminate.
Defined.

(** C6 as stated fails when only the start is present: the narrative row of
    [open_ended_frame] has a plain start and no end, and its time string is
    the start alone, not two values joined by " to ". *)
Lemma start_without_end_is_not_joined :
  iloc open_ended_frame 2 0 = Ok (CPlain "08:15:00")
  /\ iloc open_ended_frame 2 1 = Ok CEmpty
  /\ find_operations_data open_ended_frame 2
     = Ok [{| time_date := "08:15:00"; details := "Run in hole" |}]
  /\ ~ (exists a b : string, "08:15:00" = a ++ " to " ++ b).
Proof.
  split; [reflexivity|]. split; [reflexivity|]. split; [reflexivity|].
  intros Hjoined. apply (contains_spec " to " "08:15:00") in Hjoined.
  discriminate.
Qed.

(** C10. When the first cell of a narrative row below the header is missing,
    the time string of its entry is " to " followed by the end time if the
    second cell is a timestamp (so it is not empty although the start is
    missing), and the empty string if the second cell is anything else. *)
Theorem time_string_without_start
    (df : DataFrame) (ops_col : Z) (h : nat) (pre post : list (list cell))
    (row : list cell) (text : string) (time_to : cell) :
  rows df = (pre ++ row :: post)%list ->
  find_header_row df ops_col = Ok (Some h) ->
  h + 2 <= length pre ->
  iloc df (length pre) ops_col = Ok (CStr text) -> ~ skipped (CStr text) ->
  iloc df (length pre) 0 = Ok CEmpty ->
  iloc df (length pre) 1 = Ok time_to ->
  exists before after,
    find_operations_data (with_rows df pre) ops_col = Ok before /\
    find_operations_data df ops_col
    = Ok (before ++ {| time_date := match time_to with
                                    | CTimestamp t => " to " ++ strftime_time t
                                    | _ => ""
                                    end;
                       details := text |} :: after)%list.
Proof.
  intros Hrows Hheader Hbelow Hv Hfull H0 H1.
  destruct (narrative_row_emits df ops_col h pre post row Hrows Hheader Hbelow
              text CEmpty time_to Hv Hfull H0 H1) as (before & after & Hpre & Hall).
  exists before, after. split; [done|]. rewrite Hall.
  by destruct time_to.
Qed.

Lemma time_string_without_start_witness :
  (exists before after,
      find_operations_data (with_rows sample_frame (firstn 4 (rows sample_frame))) 2%Z
      = Ok before /\
      find_operations_data sample_frame 2%Z
      = Ok (before ++ {| time_date := " to 07:30";
                         details := "Circulate, mud loss 5 bbl" |} :: after)%list)
  /\ (exists before after,
         find_operations_data (with_rows sample_frame (firstn 6 (rows sample_frame))) 2%Z
         = Ok before /\
         find_operations_data sample_frame 2%Z
         = Ok (before ++ {| time_date := ""; details := "Kick drill" |} :: after)%list).
Proof.
  split.
  - refine (time_string_without_start sample_frame 2%Z 1
              (firstn 4 (rows sample_frame)) (skipn 5 (rows sample_frame))
              [CEmpty; CTimestamp half_past_seven; CStr "Circulate, mud loss 5 bbl"]
              "Circulate, mud loss 5 bbl" (CTimestamp half_past_seven)
              _ _ _ _ _ _ _);
      [reflexivity | reflexivity | simpl; lia | reflexivity
      | simpl; discriminate | reflexivity | reflexivity].
  - refine (time_string_without_start sample_frame 2%Z 1
              (firstn 6 (rows sample_frame)) (skipn 7 (rows sample_frame))
              [CEmpty; CPlain "8.25"; CStr "Kick drill"]
              "Kick drill" (CPlain "8.25") _ _ _ _ _ _ _);
      [reflexivity | reflexivity | simpl; lia | reflexivity
      | simpl; discriminate | reflexivity | reflexivity].
Defined.

(** ** The report number *)

Section Pattern.

Import PyStr.

Lemma digit_not_space (c : ascii) : is_digit c = true -> is_space c = false.
Proof. destruct c as [[] [] [] [] [] [] [] []]; done. Qed.

Lemma digit_not_hash (c : ascii) : is_digit c = true -> c <> "#"%char.
Proof. intros H ->. discriminate. Qed.

Lemma hash_not_space : is_space "#" = false.
Proof. reflexivity. Qed.

Lemma lstrip_app (ws x : string) :
  all_chars is_space ws = true -> lstrip (ws ++ x) = lstrip x.
Proof.
  induction ws as [|c ws IH]; simpl; [done|].
  intros [Hc Hws]%andb_true_iff. rewrite Hc. by apply IH.
Qed.

Lemma lstrip_id (x : string) : no_leading is_space x -> lstrip x = x.
Proof. destruct x as [|c x]; simpl; [done|]. by intros ->. Qed.

Lemma lstrip_split (s : string) :
  exists ws, s = ws ++ lstrip s /\ all_chars is_space ws = true.
Proof.
  induction s as [|c s (ws & Hs & Hws)]; simpl.
  - by exists "".
  - destruct (is_space c) eqn:Hc.
    + exists (String c ws). simpl. rewrite Hc, Hws. by rewrite <- Hs.
    + by exists "".
Qed.

Lemma take_digits_app (ds rest : string) :
  all_chars is_digit ds = true -> no_leading is_digit rest ->
  take_digits (ds ++ rest) = ds.
Proof.
  induction ds as [|c ds IH]; simpl.
  - intros _ Hrest. destruct rest as [|c rest]; simpl in *; [done|]. by rewrite Hrest.
  - intros [Hc Hds]%andb_true_iff Hrest. rewrite Hc. by rewrite IH.
Qed.

Lemma take_digits_split (s : string) :
  exists rest, s = take_digits s ++ rest /\
               all_chars is_digit (take_digits s) = true /\
               no_leading is_digit rest.
Proof.
  induction s as [|c s (rest & Hs & Hds & Hrest)]; simpl.
  - by exists "".
  - destruct (is_digit c) eqn:Hc.
    + exists rest. simpl. rewrite Hc, Hds. by rewrite <- Hs.
    + by exists (String c s).
Qed.

Lemma match_digits_spec (s ds : string) :
  match_digits s = Some ds <->
  exists rest, s = ds ++ rest /\ ds <> "" /\
               all_chars is_digit ds = true /\ no_leading is_digit rest.
Proof.
  unfold match_digits. split.
  - destruct (take_digits_split s) as (rest & Hs & Hds & Hrest).
    destruct (take_digits s) as [|c ds'] eqn:Htake; [discriminate|].
    intros [= <-]. by exists rest.
  - intros (rest & -> & Hne & Hds & Hrest). rewrite take_digits_app by done.
    by destruct ds.
Qed.

Lemma digits_no_leading_space (ds rest : string) :
  ds <> "" -> all_chars is_digit ds = true -> no_leading is_space (ds ++ rest).
Proof.
  destruct ds as [|c ds]; [done|]. simpl.
  intros _ [Hc _]%andb_true_iff. by apply digit_not_space.
Qed.

(** [\s*#?\s*(\d+)]: what follows the tag. *)
Lemma after_tag_spec (x ds : string) :
  match_digits (lstrip (skip_hash (lstrip x))) = Some ds <->
  exists ws1 hash ws2 rest,
    x = ws1 ++ hash ++ ws2 ++ ds ++ rest /\
    all_chars is_space ws1 = true /\ (hash = "" \/ hash = "#") /\
    all_chars is_space ws2 = true /\ ds <> "" /\
    all_chars is_digit ds = true /\ no_leading is_digit rest.
Proof.
  split.
  - intros H. destruct (lstrip_split x) as (ws1 & Hx & Hws1).
    assert (exists hash, lstrip x = hash ++ skip_hash (lstrip x)
                         /\ (hash = "" \/ hash = "#")) as (hash & Hy & Hhash).
    { destruct (lstrip x) as [|c y]; simpl; [by exists ""; auto|].
      destruct (ascii_dec c "#") as [->|]; [exists "#" | exists ""]; auto. }
    destruct (lstrip_split (skip_hash (lstrip x))) as (ws2 & Hz & Hws2).
    apply match_digits_spec in H as (rest & Hw & Hne & Hds & Hrest).
    exists ws1, hash, ws2, rest. split; [|done].
    by rewrite <- Hw, <- Hz, <- Hy.
  - intros (ws1 & hash & ws2 & rest & -> & Hws1 & Hhash & Hws2 & Hne & Hds & Hrest).
    rewrite lstrip_app by done.
    assert (lstrip (skip_hash (lstrip (hash ++ ws2 ++ ds ++ rest))) = ds ++ rest)
      as ->.
    { pose proof (digits_no_leading_space ds rest Hne Hds) as Hlead.
      destruct Hhash as [-> | ->]; simpl.
      - rewrite lstrip_app, (lstrip_id _ Hlead) by done.
        destruct ds as [|c ds]; [done|]. simpl in *.
        apply andb_true_iff in Hds as [Hc _].
        destruct (ascii_dec c "#") as [->|]; [discriminate|].
        simpl. by rewrite Hlead.
      - by rewrite lstrip_app, lstrip_id. }
    apply match_digits_spec. by exists rest.
Qed.

Lemma lower_ddr (tag : string) :
  lower tag = "ddr" <->
  exists c1 c2 c3, tag = String c1 (String c2 (String c3 "")) /\
    eq_ignore_case c1 "D" && eq_ignore_case c2 "D" && eq_ignore_case c3 "R" = true.
Proof.
  unfold eq_ignore_case, lower. split.
  - destruct tag as [|c1 [|c2 [|c3 [|c4 tag]]]]; simpl; try discriminate.
    intros [= H1 H2 H3]. exists c1, c2, c3. split; [done|].
    rewrite !andb_true_iff, !bool_decide_eq_true.
    by rewrite H1, H2, H3.
  - intros (c1 & c2 & c3 & -> & H).
    rewrite !andb_true_iff, !bool_decide_eq_true in H.
    destruct H as [[H1 H2] H3]. simpl. by rewrite H1, H2, H3.
Qed.

Lemma match_ddr_spec (s ds : string) :
  match_ddr s = Some ds <->
  exists tag ws1 hash ws2 rest,
    s = (tag ++ ws1 ++ hash ++ ws2) ++ ds ++ rest /\ lower tag = "ddr" /\
    all_chars is_space ws1 = true /\ (hash = "" \/ hash = "#") /\
    all_chars is_space ws2 = true /\ ds <> "" /\
    all_chars is_digit ds = true /\ no_leading is_digit rest.
Proof.
  split.
  - destruct s as [|c1 [|c2 [|c3 x]]]; simpl; try discriminate.
    destruct (eq_ignore_case c1 "D" && eq_ignore_case c2 "D"
              && eq_ignore_case c3 "R") eqn:Htag; [|discriminate].
    intros (ws1 & hash & ws2 & rest & -> & H)%after_tag_spec.
    exists (String c1 (String c2 (String c3 ""))), ws1, hash, ws2, rest.
    split; [|split; [|done]].
    + simpl. by rewrite !append_assoc.
    + apply lower_ddr. by exists c1, c2, c3.
  - intros (tag & ws1 & hash & ws2 & rest & -> & Htag & H).
    apply lower_ddr in Htag as (c1 & c2 & c3 & -> & Htag).
    simpl. rewrite Htag. apply after_tag_spec.
    exists ws1, hash, ws2, rest. split; [|done]. by rewrite !append_assoc.
Qed.

Lemma match_hash_spec (s ds : string) :
  match_hash s = Some ds <->
  exists ws rest,
    s = ("#" ++ ws) ++ ds ++ rest /\ all_chars is_space ws = true /\ ds <> "" /\
    all_chars is_digit ds = true /\ no_leading is_digit rest.
Proof.
  split.
  - destruct s as [|c x]; simpl; [discriminate|].
    destruct (ascii_dec c "#") as [->|]; [|discriminate].
    destruct (lstrip_split x) as (ws & Hx & Hws).
    intros (rest & Hw & H)%match_digits_spec.
    exists ws, rest. split; [|done]. simpl. by rewrite <- Hw, <- Hx.
  - intros (ws & rest & -> & Hws & Hne & Hds & Hrest). simpl.
    rewrite lstrip_app by done.
    rewrite lstrip_id by (by apply digits_no_leading_space).
    apply match_digits_spec. by exists rest.
Qed.

Lemma match_ddr_hash (x : string) : match_ddr (String "#" x) = None.
Proof. by destruct x as [|c2 [|c3 x]]. Qed.

Lemma match_here_spec (s ds : string) :
  match_here s = Some ds <-> number_at_start s ds.
Proof.
  unfold match_here, number_at_start, is_number_prefix. split.
  - destruct (match_ddr s) as [g|] eqn:Hddr.
    + intros [= ->].
      apply match_ddr_spec in Hddr
        as (tag & ws1 & hash & ws2 & rest & -> & Htag & Hws1 & Hhash & Hws2 & H).
      exists (tag ++ ws1 ++ hash ++ ws2), rest. split; [done|]. split; [|done].
      left. by exists tag, ws1, hash, ws2.
    + intros (ws & rest & -> & Hws & H)%match_hash_spec.
      exists ("#" ++ ws), rest. split; [done|]. split; [|done].
      right. by exists ws.
  - intros (sep & rest & -> & [(tag & ws1 & hash & ws2 & -> & Htag & Hws1 & Hhash & Hws2)
                              |(ws & -> & Hws)] & H).
    + assert (match_ddr ((tag ++ ws1 ++ hash ++ ws2) ++ ds ++ rest) = Some ds) as ->;
        [|done].
      apply match_ddr_spec. by exists tag, ws1, hash, ws2, rest.
    + change (("#" ++ ws) ++ ds ++ rest) with (String "#" (ws ++ ds ++ rest)).
      rewrite match_ddr_hash.
      apply match_hash_spec. by exists ws, rest.
Qed.

Lemma re_search_Some (s ds : string) :
  re_search s = Some ds <-> first_number s ds.
Proof.
  unfold first_number. induction s as [|c s IH]; cbn [re_search].
  - split; [discriminate|].
    intros (pre & s' & Hs & Hat & _). symmetry in Hs.
    apply append_eq_nil in Hs as [-> ->].
    apply match_here_spec in Hat. discriminate.
  - destruct (match_here (String c s)) as [g|] eqn:Hhere.
    + split.
      * intros [= ->]. exists "", (String c s). split; [done|].
        split; [by apply match_here_spec|].
        intros p1 p2 ds' Hp Hne. symmetry in Hp.
        by apply append_eq_nil in Hp as [_ ->].
      * intros ([|x pre] & s' & Hs & Hat & Hleft); simpl in Hs.
        -- subst s'. apply match_here_spec in Hat. congruence.
        -- injection Hs as <- ->. exfalso.
           apply (Hleft "" (String c pre) g eq_refl); [done|].
           by apply match_here_spec.
    + rewrite IH. split.
      * intros (pre & s' & -> & Hat & Hleft).
        exists (String c pre), s'. split; [done|]. split; [done|].
        intros [|x p1] p2 ds' Hp Hne Hat'; simpl in Hp.
        -- subst p2. simpl in Hat'. apply match_here_spec in Hat'. congruence.
        -- injection Hp as -> ->. by apply (Hleft p1 p2 ds').
      * intros ([|x pre] & s' & Hs & Hat & Hleft); simpl in Hs.
        -- subst s'. apply match_here_spec in Hat. congruence.
        -- injection Hs as <- ->. exists pre, s'. split; [done|]. split; [done|].
           intros p1 p2 ds' -> Hne. by apply (Hleft (String c p1) p2 ds').
Qed.

Lemma re_search_None (s : string) : re_search s = None <-> no_number s.
Proof.
  unfold no_number. induction s as [|c s IH]; cbn [re_search].
  - split; [|done]. intros _ pre s' ds Hs Hat. symmetry in Hs.
    apply append_eq_nil in Hs as [-> ->].
    apply match_here_spec in Hat. discriminate.
  - destruct (match_here (String c s)) as [g|] eqn:Hhere.
    + split; [discriminate|]. intros H. exfalso.
      apply (H "" (String c s) g eq_refl). by apply match_here_spec.
    + rewrite IH. split.
      * intros H [|x pre] s' ds Hs Hat; simpl in Hs.
        -- subst s'. apply match_here_spec in Hat. congruence.
        -- injection Hs as <- ->. by apply (H pre s' ds).
      * intros H pre s' ds -> Hat. by apply (H (String c pre) s' ds).
Qed.

End Pattern.

(** C5. [extract_report_number] returns the digits of the leftmost place in
    the bare filename where "DDR" (in any case, then optional spaces, an
    optional "#" and optional spaces) or "#" (then optional spaces) is
    followed by digits, and the bare filename when there is no such place:
    "DDR #42.xlsx" gives "42" and "morning_log.xlsx" gives "morning_log". *)
Theorem extract_report_number_spec :
  (forall filepath : Path,
      (exists ds, first_number (stem filepath) ds
                  /\ extract_report_number filepath = ds)
      \/ (no_number (stem filepath)
          /\ extract_report_number filepath = stem filepath))
  /\ extract_report_number {| parent := "input-sheets"; name := "DDR #42.xlsx" |} = "42"
  /\ extract_report_number {| parent := "input-sheets"; name := "morning_log.xlsx" |}
     = "morning_log".
Proof.
  split; [|split; reflexivity].
  intros filepath. unfold extract_report_number.
  destruct (re_search (stem filepath)) as [ds|] eqn:Hsearch.
  - left. exists ds. split; [|done]. by apply re_search_Some.
  - right. split; [|done]. by apply re_search_None.
Qed.

(** ** The driver and the writer *)

Lemma process_all_files_loop (fs : gmap string file) (keywords : list string)
    (excel_files : list Path) (all_results : list risk_match) (console : list string) :
  fold_left (fun '(all_results, console) (filepath : Path) =>
               let console := (console ++ [("Processing: " ++ name filepath)%string])%list in
               match process_ddr_file fs filepath keywords with
               | Ok results =>
                   ((all_results ++ results)%list,
                    (console ++ [("  Found " ++ PyStr.str_nat (length results)
                                  ++ " risk entries")%string])%list)
               | Raise e =>
                   (all_results,
                    (console ++ [("  Error processing file: " ++ str_exception e)%string])%list)
               end)
            excel_files (all_results, console)
  = ((all_results ++ flat_map (rows_of_file fs keywords) excel_files)%list,
     (console ++ flat_map (lines_of_file fs keywords) excel_files)%list).
Proof.
  revert all_results console.
  induction excel_files as [|filepath excel_files IH]; intros all_results console.
  - simpl. by rewrite !app_nil_r.
  - cbn [fold_left flat_map]. unfold rows_of_file at 1, lines_of_file at 1.
    destruct (process_ddr_file fs filepath keywords) as [results|e];
      rewrite IH; f_equal; by rewrite <- ?app_assoc.
Qed.

(** C9. [process_all_files] always returns: a file whose processing raises
    adds an error line to the console and no row, and the files after it are
    still processed. The rows returned are those of the files that were
    processed without exception, concatenated in the order of traversal (the
    [.xlsx] files, then the [.xls] files). *)
Theorem process_all_files_skips_failures
    (fs : gmap string file) (input_folder : Folder) (keywords : list string) :
  process_all_files fs input_folder keywords
  = (flat_map (rows_of_file fs keywords)
              (glob input_folder ".xlsx" ++ glob input_folder ".xls")%list,
     flat_map (lines_of_file fs keywords)
              (glob input_folder ".xlsx" ++ glob input_folder ".xls")%list)
  /\ (forall (filepath : Path) (e : exception),
         In filepath (glob input_folder ".xlsx" ++ glob input_folder ".xls")%list ->
         process_ddr_file fs filepath keywords = Raise e ->
         rows_of_file fs keywords filepath = []
         /\ In ("  Error processing file: " ++ str_exception e)
               (snd (process_all_files fs input_folder keywords)))
  /\ (forall (filepath : Path) (results : list risk_match),
         In filepath (glob input_folder ".xlsx" ++ glob input_folder ".xls")%list ->
         process_ddr_file fs filepath keywords = Ok results ->
         incl results (fst (process_all_files fs input_folder keywords))).
Proof.
  assert (process_all_files fs input_folder keywords
          = (flat_map (rows_of_file fs keywords)
                      (glob input_folder ".xlsx" ++ glob input_folder ".xls")%list,
             flat_map (lines_of_file fs keywords)
                      (glob input_folder ".xlsx" ++ glob input_folder ".xls")%list))
    as Heq by (unfold process_all_files; by rewrite process_all_files_loop).
  split; [exact Heq|]. rewrite Heq. simpl. split.
  - intros filepath e Hin Hraise. unfold rows_of_file. rewrite Hraise.
    split; [done|]. apply in_flat_map. exists filepath. split; [done|].
    unfold lines_of_file. rewrite Hraise. simpl; auto.
  - intros filepath results Hin Hok m Hm. apply in_flat_map.
    exists filepath. split; [done|]. unfold rows_of_file. by rewrite Hok.
Qed.

Lemma process_all_files_skips_failures_witness :
  In "  Error processing file: File is not a zip file"
     (snd (process_all_files mixed_fs mixed_folder RISK_KEYWORDS))
  /\ incl [ {| report_number := "42"; match_time_date := "2024-03-05 06:00 to 07:30";
               risks := "Torque, Stuck" |};
            {| report_number := "42"; match_time_date := " to 07:30";
               risks := "Mud loss" |};
            {| report_number := "42"; match_time_date := ""; risks := "Kick" |} ]
          (fst (process_all_files mixed_fs mixed_folder RISK_KEYWORDS)).
Proof.
  split.
  - refine (proj2 (proj1 (proj2 (process_all_files_skips_failures
                                   mixed_fs mixed_folder RISK_KEYWORDS))
                     {| parent := "input-sheets"; name := "broken.xlsx" |}
                     (FileError "File is not a zip file") _ _)).
    + simpl; auto.
    + reflexivity.
  - refine (proj2 (proj2 (process_all_files_skips_failures
                            mixed_fs mixed_folder RISK_KEYWORDS))
              {| parent := "input-sheets"; name := "DDR #42.xlsx" |} _ _ _).
    + simpl; auto.
    + vm_compute. reflexivity.
Defined.

(** C8. With an empty result table [save_results] prints that there is
    nothing to save and returns: the file system is as it was. *)
Theorem save_results_empty_writes_nothing
    (df : list risk_match) (output_path : Path) (sheet_name : string)
    (fs : gmap string file) :
  empty df = true ->
  save_results df output_path sheet_name fs = Ok (fs, ["No results to save."]).
Proof. intros Hempty. unfold save_results. by rewrite Hempty. Qed.

Lemma save_results_empty_writes_nothing_witness :
  save_results [] {| parent := "output"; name := "risk_analysis.xlsx" |}
               "Risk Analysis" sample_fs
  = Ok (sample_fs, ["No results to save."]).
Proof.
  apply (save_results_empty_writes_nothing []). reflexivity.
Defined.

(** ** The program on the sample data *)

Example find_operations_column_sample : find_operations_column sample_frame = Ok 2%Z.
Proof. reflexivity. Qed.

Example find_operations_column_absent :
  find_operations_column {| columns := 2; rows := [[CStr "Cover"; CPlain "1"]] |}
  = Ok (-1)%Z.
Proof. reflexivity. Qed.

Example find_operations_data_sample :
  find_operations_data sample_frame 2
  = Ok [ {| time_date := "2024-03-05 06:00 to 07:30";
            details := "Observed high torque and signs of stuck pipe" |};
         {| time_date := " to 07:30"; details := "Circulate, mud loss 5 bbl" |};
         {| time_date := ""; details := "Kick drill" |};
         {| time_date := "08:15:00 to 09:00:00"; details := "Run in hole" |} ].
Proof. reflexivity. Qed.

Example process_all_files_mixed :
  process_all_files mixed_fs mixed_folder RISK_KEYWORDS
  = ([ {| report_number := "42"; match_time_date := "2024-03-05 06:00 to 07:30";
          risks := "Torque, Stuck" |};
       {| report_number := "42"; match_time_date := " to 07:30"; risks := "Mud loss" |};
       {| report_number := "42"; match_time_date := ""; risks := "Kick" |} ],
     [ "Processing: broken.xlsx";
       "  Error processing file: File is not a zip file";
       "Processing: DDR #42.xlsx";
       "  Found 3 risk entries";
       "Processing: narrow.xlsx";
       "  Error processing file: index 1 is out of bounds for axis 0 with size 1";
       "Processing: DDR 7.xls";
       "  Found 0 risk entries" ]).
Proof. vm_compute. reflexivity. Qed.

Example save_results_new_file :
  (let! r := save_results
               [{| report_number := "42"; match_time_date := ""; risks := "Kick" |}]
               {| parent := "output"; name := "risk_analysis.xlsx" |}
               "Risk Analysis" sample_fs in
   Ok (fst r !! "output/risk_analysis.xlsx", snd r))
  = Ok (Some (Workbook
                [("Risk Analysis",
                  Sheet {| columns := 3;
                           rows := [ [CStr "Report Number"; CStr "Time/Date"; CStr "Risks"];
                                     [CStr "42"; CEmpty; CStr "Kick"] ] |})]),
        ["Results saved to: output/risk_analysis.xlsx"]).
Proof. vm_compute. reflexivity. Qed.

(** ** One workbook: all its sheets *)

Lemma for_each_collect {A B : Type} (f : A -> result (list B))
    (body : list B -> A -> result (list B)) (xs : list A) (acc : list B) :
  (forall acc x, body acc x = (let! ys := f x in Ok (acc ++ ys)%list)) ->
  for_each xs acc body = (let! ys := collect f xs in Ok (acc ++ ys)%list).
Proof.
  intros Hbody. revert acc; induction xs as [|x xs IH]; intros acc; simpl.
  - by rewrite app_nil_r.
  - rewrite Hbody. destruct (f x) as [ys|e]; simpl; [|done].
    rewrite IH. destruct (collect f xs) as [more|e]; simpl; [|done].
    by rewrite app_assoc.
Qed.

Lemma collect_ext {A B : Type} (f g : A -> result (list B)) (l : list A) :
  (forall x, f x = g x) -> collect f l = collect g l.
Proof.
  intros Hfg. induction l as [|x l IH]; simpl; [done|]. by rewrite Hfg, IH.
Qed.

(** The rows of a file are the rows of its sheets, in the order of the
    sheets; the first exception ends the file. *)
Lemma process_ddr_file_sheets (fs : gmap string file) (filepath : Path)
    (keywords : list string) (xl : list (string * sheet)) :
  ExcelFile fs filepath = Ok xl ->
  process_ddr_file fs filepath keywords
  = collect (sheet_matches fs filepath keywords) (sheet_names xl).
Proof.
  intros Hxl. unfold process_ddr_file. rewrite Hxl. cbn [bind].
  rewrite (for_each_collect (sheet_matches fs filepath keywords)).
  - by destruct (collect _ _).
  - intros acc sheet_name. unfold sheet_matches.
    destruct (read_excel fs filepath sheet_name) as [df|e]; simpl; [|done].
    destruct (find_operations_column df) as [ops_col|e]; simpl; [|done].
    destruct (ops_col =? -1)%Z; simpl; [by rewrite app_nil_r|].
    destruct (find_operations_data df ops_col) as [operations|e]; simpl; [|done].
    by rewrite risk_matches_loop.
Qed.

Lemma risk_match_of_filter (report : string) (keywords : list string) (op : operation) :
  risk_match_of report keywords op
  = match List.filter (keyword_matches (details op)) keywords with
    | [] => []
    | matched =>
        [{| report_number := report;
            match_time_date := time_date op;
            risks := PyStr.join ", " matched |}]
    end.
Proof. unfold risk_match_of. by rewrite search_keywords_filter. Qed.

(** C2. [search_keywords] returns every matching keyword, in the order of
    the keyword list. [process_ddr_file] goes through the sheets of the
    workbook in order and emits, for every operation of every sheet with a
    header that matches at least one keyword, one row that carries all its
    matches joined with ", " (no row for an operation without a match); so
    every row of a file carries all the matches of its narrative, in list
    order, joined with ", ". E.g. "Observed high torque and signs of stuck
    pipe" with the keywords Torque, Stuck gives both, joined as
    "Torque, Stuck". *)
Theorem all_matches_in_list_order_joined :
  (forall (text : string) (keywords : list string),
      search_keywords text keywords = List.filter (keyword_matches text) keywords)
  /\ (forall (fs : gmap string file) (filepath : Path) (keywords : list string)
             (sheet_name : string) (df : DataFrame) (ops_col : Z)
             (operations : list operation),
         fs !! path_str filepath = Some (Workbook [(sheet_name, Sheet df)]) ->
         find_operations_column df = Ok ops_col -> ops_col <> (-1)%Z ->
         find_operations_data df ops_col = Ok operations ->
         process_ddr_file fs filepath keywords
         = Ok (flat_map (fun op =>
                           match List.filter (keyword_matches (details op)) keywords with
                           | [] => []
                           | matched =>
                               [{| report_number := extract_report_number filepath;
                                   match_time_date := time_date op;
                                   risks := PyStr.join ", " matched |}]
                           end) operations))
  /\ (forall (fs : gmap string file) (filepath : Path) (keywords : list string)
             (xl : list (string * sheet)),
         ExcelFile fs filepath = Ok xl ->
         process_ddr_file fs filepath keywords
         = collect
             (fun sheet_name =>
                (let! df := read_excel fs filepath sheet_name in
                 let! ops_col := find_operations_column df in
                 if (ops_col =? -1)%Z then Ok []
                 else
                   (let! operations := find_operations_data df ops_col in
                    Ok (flat_map
                          (fun op =>
                             match List.filter (keyword_matches (details op)) keywords with
                             | [] => []
                             | matched =>
                                 [{| report_number := extract_report_number filepath;
                                     match_time_date := time_date op;
                                     risks := PyStr.join ", " matched |}]
                             end) operations))))
             (sheet_names xl))
  /\ (forall (fs : gmap string file) (filepath : Path) (keywords : list string)
             (results : list risk_match) (m : risk_match),
         process_ddr_file fs filepath keywords = Ok results -> In m results ->
         exists sheet_name df ops_col operations op,
           read_excel fs filepath sheet_name = Ok df
           /\ find_operations_column df = Ok ops_col
           /\ find_operations_data df ops_col = Ok operations
           /\ In op operations
           /\ List.filter (keyword_matches (details op)) keywords <> []
           /\ m = {| report_number := extract_report_number filepath;
                     match_time_date := time_date op;
                     risks := PyStr.join ", "
                                (List.filter (keyword_matches (details op)) keywords) |})
  /\ search_keywords "Observed high torque and signs of stuck pipe" ["Torque"; "Stuck"]
     = ["Torque"; "Stuck"]
  /\ PyStr.join ", " ["Torque"; "Stuck"] = "Torque, Stuck".
Proof.
  split; [exact search_keywords_filter|].
  split; [|split; [|split; [|split; reflexivity]]].
  - intros fs filepath keywords sheet_name df ops_col operations Hfile Hcol Hfound Hdata.
    rewrite (process_single_sheet _ _ _ _ _ _ _ Hfile Hcol Hfound Hdata).
    f_equal. apply flat_map_ext. intros op. apply risk_match_of_filter.
  - intros fs filepath keywords xl Hxl.
    rewrite (process_ddr_file_sheets _ _ _ _ Hxl).
    apply collect_ext. intros sheet_name. unfold sheet_matches.
    destruct (read_excel fs filepath sheet_name) as [df|e]; simpl; [|done].
    destruct (find_operations_column df) as [ops_col|e]; simpl; [|done].
    destruct (ops_col =? -1)%Z; [done|].
    destruct (find_operations_data df ops_col) as [operations|e]; simpl; [|done].
    f_equal. apply flat_map_ext. intros op. apply risk_match_of_filter.
  - intros fs filepath keywords results m Hok Hm.
    destruct (ExcelFile fs filepath) as [xl|e] eqn:Hxl;
      [|unfold process_ddr_file in Hok; by rewrite Hxl in Hok].
    rewrite (process_ddr_file_sheets _ _ _ _ Hxl) in Hok.
    destruct (collect_In _ _ _ _ Hok Hm) as (sheet_name & rows_of_sheet & _ & Hsheet & Hrow).
    unfold sheet_matches in Hsheet.
    destruct (read_excel fs filepath sheet_name) as [df|e] eqn:Hdf; simpl in Hsheet;
      [|discriminate].
    destruct (find_operations_column df) as [ops_col|e] eqn:Hcol; simpl in Hsheet;
      [|discriminate].
    destruct (ops_col =? -1)%Z; [injection Hsheet as <-; by destruct Hrow|].
    destruct (find_operations_data df ops_col) as [operations|e] eqn:Hdata;
      simpl in Hsheet; [|discriminate].
    injection Hsheet as <-. apply in_flat_map in Hrow as (op & Hop & Hrow).
    rewrite risk_match_of_filter in Hrow.
    exists sheet_name, df, ops_col, operations, op.
    do 4 (split; [done|]).
    destruct (List.filter (keyword_matches (details op)) keywords) as [|kw matched];
      [by destruct Hrow|].
    split; [done|]. by destruct Hrow as [<-|[]].
Qed.

Lemma all_matches_in_list_order_joined_witness :
  process_ddr_file sample_fs sample_path ["Torque"; "Stuck"; "Kick"]
  = Ok [ {| report_number := "42";
            match_time_date := "2024-03-05 06:00 to 07:30";
            risks := "Torque, Stuck" |};
         {| report_number := "42";
            match_time_date := "";
            risks := "Kick" |} ]
  /\ process_ddr_file three_sheet_fs sample_path RISK_KEYWORDS
     = Ok [ {| report_number := "42";
               match_time_date := "2024-03-05 06:00 to 07:30";
               risks := "Torque, Stuck" |};
            {| report_number := "42"; match_time_date := " to 07:30";
               risks := "Mud loss" |};
            {| report_number := "42"; match_time_date := ""; risks := "Kick" |};
            {| report_number := "42"; match_time_date := "22:00:00 to 23:30:00";
               risks := "Drag, Pack-off" |} ].
Proof.
  split.
  - refine (proj1 (proj2 all_matches_in_list_order_joined)
              sample_fs sample_path _ "Sheet1" sample_frame 2%Z
              [ {| time_date := "2024-03-05 06:00 to 07:30";
                   details := "Observed high torque and signs of stuck pipe" |};
                {| time_date := " to 07:30"; details := "Circulate, mud loss 5 bbl" |};
                {| time_date := ""; details := "Kick drill" |};
                {| time_date := "08:15:00 to 09:00:00"; details := "Run in hole" |} ]
              _ _ _ _).
    + reflexivity.
    + reflexivity.
    + discriminate.
    + reflexivity.
  - refine (eq_trans
              (proj1 (proj2 (proj2 all_matches_in_list_order_joined))
                 three_sheet_fs sample_path RISK_KEYWORDS
                 [("Day", Sheet sample_frame);
                  ("Cover", Sheet {| columns := 2; rows := [[CStr "Cover page"; CEmpty]] |});
                  ("Night", Sheet night_frame)] _) _).
    + reflexivity.
    + vm_compute. reflexivity.
Defined.

(** * Further properties *)

(** ** The keyword matcher, continued *)

Lemma filter_sublist {A : Type} (f : A -> bool) (l : list A) :
  sublist (List.filter f l) l.
Proof.
  induction l as [|x l IH]; simpl; [constructor|].
  destruct (f x); by constructor.
Qed.

Lemma filter_sublist_mono {A : Type} (f g : A -> bool) (l : list A) :
  (forall x, f x = true -> g x = true) ->
  sublist (List.filter f l) (List.filter g l).
Proof.
  intros Hfg. induction l as [|x l IH]; simpl; [constructor|].
  destruct (f x) eqn:Hf.
  - rewrite (Hfg x Hf). by constructor.
  - destruct (g x); [by constructor | done].
Qed.

Lemma filter_filter_same {A : Type} (f : A -> bool) (l : list A) :
  List.filter f (List.filter f l) = List.filter f l.
Proof.
  induction l as [|x l IH]; simpl; [done|].
  destruct (f x) eqn:Hf; simpl; [|done]. by rewrite Hf, IH.
Qed.

(** X1. The matches are a subsequence of the keyword list: no keyword is
    invented, repeated or moved, and there are at most as many matches as
    keywords. *)
Theorem search_keywords_sublist (text : string) (keywords : list string) :
  sublist (search_keywords text keywords) keywords
  /\ length (search_keywords text keywords) <= length keywords.
Proof.
  assert (sublist (search_keywords text keywords) keywords) as H
      by (rewrite search_keywords_filter; apply filter_sublist).
  split; [done|]. by apply sublist_length.
Qed.

(** X3. Matching against two keyword lists one after the other is matching
    against their concatenation. *)
Theorem search_keywords_app (text : string) (keywords more : list string) :
  search_keywords text (keywords ++ more)%list
  = (search_keywords text keywords ++ search_keywords text more)%list.
Proof. rewrite !search_keywords_filter. apply List.filter_app. Qed.

(** X4. A longer narrative matches at least as much: the matches of a text
    are a subsequence of the matches of any text it occurs in. *)
Theorem search_keywords_monotone (text text' : string) (keywords : list string) :
  is_substring text text' ->
  sublist (search_keywords text keywords) (search_keywords text' keywords).
Proof.
  intros Hsub. rewrite !search_keywords_filter.
  apply filter_sublist_mono. intros kw. unfold keyword_matches.
  rewrite !contains_spec. intros Hkw.
  apply is_substring_trans with (PyStr.lower text); [done|].
  by apply is_substring_map_chars.
Qed.

Lemma search_keywords_monotone_witness :
  sublist (search_keywords "stuck pipe" RISK_KEYWORDS)
          (search_keywords "High torque, then stuck pipe at 900 m" RISK_KEYWORDS).
Proof.
  apply search_keywords_monotone. by exists "High torque, then ", " at 900 m".
Defined.

(** X5. Matching the matches again changes nothing. *)
Theorem search_keywords_idempotent (text : string) (keywords : list string) :
  search_keywords text (search_keywords text keywords)
  = search_keywords text keywords.
Proof. rewrite !search_keywords_filter. apply filter_filter_same. Qed.

(** X6. An empty keyword matches every narrative, and the empty narrative is
    matched by empty keywords only. *)
Theorem search_keywords_empty_strings :
  (forall (text : string) (keywords : list string),
      In "" keywords -> In "" (search_keywords text keywords))
  /\ (forall (keywords : list string) (kw : string),
         In kw (search_keywords "" keywords) -> kw = "").
Proof.
  split.
  - intros text keywords Hin. rewrite search_keywords_filter.
    apply filter_In. split; [done|].
    unfold keyword_matches. apply contains_spec. by exists "", (PyStr.lower text).
  - intros keywords kw. rewrite search_keywords_filter, filter_In.
    unfold keyword_matches. rewrite contains_spec.
    intros [_ (pre & post & H)]. symmetry in H. simpl in H.
    apply append_eq_nil in H as [_ H]. apply append_eq_nil in H as [H _].
    by destruct kw.
Qed.

Lemma search_keywords_empty_strings_witness :
  In "" (search_keywords "Run in hole" ["Kick"; ""])
  /\ "" = "".
Proof.
  split.
  - apply (proj1 search_keywords_empty_strings). simpl; auto.
  - apply (proj2 search_keywords_empty_strings [""; "Kick"]). simpl; auto.
Defined.

(** ** The header locator, continued *)

Lemma first_some_ext {A R : Type} (g g' : A -> option R) (xs : list A) :
  (forall x, In x xs -> g x = g' x) -> first_some g xs = first_some g' xs.
Proof.
  induction xs as [|x xs IH]; intros Hext; simpl; [done|].
  rewrite <- (Hext x) by (by left). destruct (g x); [done|].
  apply IH. intros y Hy. apply Hext. by right.
Qed.

Lemma find_operations_column_found (df : DataFrame) (z : Z) :
  find_operations_column df = Ok z -> z <> (-1)%Z ->
  exists r c,
    z = Z.of_nat c /\ r < min 100 (len df) /\ c < columns df /\
    is_operations_header (cell_at df r c) = true /\
    forall r' c', r' < r -> c' < columns df ->
                  is_operations_header (cell_at df r' c') = false.
Proof.
  rewrite find_operations_column_scan.
  destruct (first_some _ (range (min 100 (len df)))) as [z'|] eqn:Hscan;
    intros Hz Hfound; injection Hz as Hz; simpl in Hz; [subst z'|congruence].
  apply first_some_seq_Some in Hscan as (r & Hr & Hrow & Habove).
  apply first_some_seq_Some in Hrow as (c & Hc & Hcell & _).
  destruct (is_operations_header (cell_at df r c)) eqn:Hhdr; [|discriminate].
  injection Hcell as <-. exists r, c.
  split; [done|]. split; [lia|]. split; [lia|]. split; [done|].
  intros r' c' Hr' Hc'. specialize (Habove r' ltac:(lia)).
  apply first_some_seq_None with (i := c') in Habove; [|lia].
  by destruct (is_operations_header (cell_at df r' c')).
Qed.

(** X7. The header locator never raises, and what it returns is -1 or a
    column of the frame. *)
Theorem find_operations_column_in_range (df : DataFrame) :
  exists c, find_operations_column df = Ok c
            /\ (c = (-1)%Z \/ (0 <= c < Z.of_nat (columns df))%Z).
Proof.
  destruct (find_operations_column df) as [c|e] eqn:Hcol.
  - exists c. split; [done|].
    destruct (decide (c = (-1)%Z)) as [|Hfound]; [by left|right].
    destruct (find_operations_column_found _ _ Hcol Hfound) as (r & c' & -> & _ & Hc & _).
    lia.
  - rewrite find_operations_column_scan in Hcol. discriminate.
Qed.

(** X8. Only the first 100 rows are searched: the rows after them do not
    change the result. *)
Theorem find_operations_column_first_hundred (df : DataFrame) :
  find_operations_column (with_rows df (take 100 (rows df)))
  = find_operations_column df.
Proof.
  rewrite !find_operations_column_scan. f_equal. f_equal.
  assert (min 100 (len (with_rows df (take 100 (rows df)))) = min 100 (len df)) as ->.
  { unfold len. cbn [with_rows rows]. rewrite length_take. lia. }
  apply first_some_ext. intros r Hr. apply in_seq in Hr.
  apply first_some_ext. intros c _.
  unfold cell_at. cbn [with_rows rows]. by rewrite lookup_take_lt by lia.
Qed.

(** X9. A column returned by the header locator has its header row: the
    segmenter called with it finds the header among the first 100 rows, in
    the row of the cell the locator found, so its early return for a missing
    header is not taken. *)
Theorem located_column_has_header_row (df : DataFrame) (ops_col : Z) :
  find_operations_column df = Ok ops_col -> ops_col <> (-1)%Z ->
  exists h v,
    h < min 100 (len df) /\ find_header_row df ops_col = Ok (Some h) /\
    iloc df h ops_col = Ok v /\ holds_header v.
Proof.
  intros Hcol Hfound.
  destruct (find_operations_column_found _ _ Hcol Hfound)
    as (r & c & -> & Hr & Hc & Hhdr & Habove).
  exists r, (cell_at df r c). split; [done|].
  rewrite (find_header_row_closed df _ c) by (by apply column_position_inside).
  split; [|split].
  - f_equal. apply header_row_of_Some. split; [done|].
    split; [by apply is_operations_header_spec|].
    intros j Hj Hheader. apply is_operations_header_spec in Hheader.
    by rewrite (Habove j c Hj Hc) in Hheader.
  - apply iloc_inside; lia.
  - by apply is_operations_header_spec.
Qed.

Lemma located_column_has_header_row_witness :
  exists h v,
    h < min 100 (len sample_frame) /\ find_header_row sample_frame 2 = Ok (Some h) /\
    iloc sample_frame h 2 = Ok v /\ holds_header v.
Proof.
  apply located_column_has_header_row.
  - reflexivity.
  - discriminate.
Defined.

(** ** The row segmenter, continued *)

Lemma column_position_valid (df : DataFrame) (col : Z) :
  (- Z.of_nat (columns df) <= col < Z.of_nat (columns df))%Z ->
  exists pos, column_position df col = Ok pos.
Proof.
  intros Hcol. unfold column_position.
  destruct (Z.leb_spec 0 col), (Z.ltb_spec col (Z.of_nat (columns df))); simpl;
    try (by eexists); try lia.
  destruct (Z.leb_spec (- Z.of_nat (columns df)) col), (Z.ltb_spec col 0); simpl;
    try (by eexists); lia.
Qed.

Lemma column_position_invalid (df : DataFrame) (col : Z) :
  (col < - Z.of_nat (columns df) \/ Z.of_nat (columns df) <= col)%Z ->
  column_position df col = Raise (IndexError col (columns df)).
Proof.
  intros Hcol. unfold column_position.
  destruct (Z.leb_spec 0 col), (Z.ltb_spec col (Z.of_nat (columns df))); simpl;
    try lia;
    destruct (Z.leb_spec (- Z.of_nat (columns df)) col), (Z.ltb_spec col 0); simpl;
    try done; lia.
Qed.

(** X10. In a frame of at least two columns the segmenter never raises,
    whatever the cells hold, for any column index within the width
    (negative indices included). *)
Theorem segmenter_total_on_wide_frames (df : DataFrame) (ops_col : Z) :
  2 <= columns df ->
  (- Z.of_nat (columns df) <= ops_col < Z.of_nat (columns df))%Z ->
  exists operations, find_operations_data df ops_col = Ok operations.
Proof.
  intros Hwide Hcol.
  destruct (column_position_valid _ _ Hcol) as (pos & Hpos).
  rewrite (find_operations_data_closed _ _ _ Hpos).
  destruct (header_row_of df pos) as [h|]; [|by eexists].
  rewrite collect_wide by done. by eexists.
Qed.

Lemma segmenter_total_on_wide_frames_witness :
  exists operations, find_operations_data sample_frame (-3) = Ok operations.
Proof.
  apply segmenter_total_on_wide_frames; simpl; lia.
Defined.

(** X11. A column index outside the width raises [IndexError] as soon as
    the frame has a row; on a frame without rows nothing is read and the
    result is empty. *)
Theorem segmenter_column_out_of_range (df : DataFrame) (ops_col : Z) :
  (ops_col < - Z.of_nat (columns df) \/ Z.of_nat (columns df) <= ops_col)%Z ->
  (rows df <> [] ->
   find_operations_data df ops_col = Raise (IndexError ops_col (columns df)))
  /\ (rows df = [] -> find_operations_data df ops_col = Ok []).
Proof.
  intros Hcol. apply column_position_invalid in Hcol.
  unfold find_operations_data, find_header_row, len, iloc.
  destruct (rows df) as [|row l]; split; try done; intros _.
  cbn [length]. replace (min 100 (S (length l))) with (S (min 99 (length l))) by lia.
  cbn [range seq for_return lookup list_lookup]. by rewrite Hcol.
Qed.

Lemma segmenter_column_out_of_range_witness :
  find_operations_data sample_frame 3 = Raise (IndexError 3 3)
  /\ find_operations_data {| columns := 0; rows := [] |} 0 = Ok [].
Proof.
  split.
  - apply (proj1 (segmenter_column_out_of_range sample_frame 3 ltac:(simpl; lia))).
    discriminate.
  - apply (proj2 (segmenter_column_out_of_range {| columns := 0; rows := [] |} 0
                    ltac:(simpl; lia))).
    reflexivity.
Defined.

(** X12. A negative column index counts from the last column: the segmenter
    called with -1 (the sentinel of the header locator) reads the last
    column. *)
Theorem segmenter_negative_column (df : DataFrame) (ops_col : Z) :
  (- Z.of_nat (columns df) <= ops_col < 0)%Z ->
  find_operations_data df ops_col
  = find_operations_data df (Z.of_nat (columns df) + ops_col).
Proof.
  intros Hcol.
  assert (column_position df ops_col
          = Ok (Z.to_nat (Z.of_nat (columns df) + ops_col))) as Hneg.
  { unfold column_position.
    destruct (Z.leb_spec 0 ops_col); [lia|]. simpl.
    destruct (Z.leb_spec (- Z.of_nat (columns df)) ops_col); [|lia].
    destruct (Z.ltb_spec ops_col 0); [done|lia]. }
  assert (column_position df (Z.of_nat (columns df) + ops_col)
          = Ok (Z.to_nat (Z.of_nat (columns df) + ops_col))) as Hpos.
  { unfold column_position.
    destruct (Z.leb_spec 0 (Z.of_nat (columns df) + ops_col)); [|lia].
    destruct (Z.ltb_spec (Z.of_nat (columns df) + ops_col) (Z.of_nat (columns df)));
      [done|lia]. }
  by rewrite (find_operations_data_closed _ _ _ Hneg),
             (find_operations_data_closed _ _ _ Hpos).
Qed.

Lemma segmenter_negative_column_witness :
  find_operations_data sample_frame (-1) = find_operations_data sample_frame 2.
Proof.
  apply (segmenter_negative_column sample_frame (-1)). simpl; lia.
Defined.

Lemma collect_length {A B : Type} (f : A -> result (list B)) (l : list A)
    (ys : list B) :
  (forall x xs, f x = Ok xs -> length xs <= 1) ->
  collect f l = Ok ys -> length ys <= length l.
Proof.
  intros Hone. revert ys; induction l as [|x l IH]; intros ys; simpl.
  - by intros [= <-].
  - destruct (f x) as [xs|e] eqn:Hx; simpl; [|discriminate].
    destruct (collect f l) as [more|e]; simpl; [|discriminate].
    intros [= <-]. rewrite length_app.
    specialize (Hone x xs Hx). specialize (IH more eq_refl). lia.
Qed.

(** X13. There is at most one entry per row from two below the header on. *)
Theorem segmenter_at_most_one_per_row (df : DataFrame) (ops_col : Z) (h : nat)
    (operations : list operation) :
  find_header_row df ops_col = Ok (Some h) ->
  find_operations_data df ops_col = Ok operations ->
  length operations <= len df - (h + 2).
Proof.
  intros Hheader Hdata.
  destruct (find_header_row_Some_position _ _ _ Hheader) as (pos & Hpos).
  rewrite (find_operations_data_closed _ _ _ Hpos) in Hdata.
  rewrite (find_header_row_closed _ _ _ Hpos) in Hheader.
  injection Hheader as Hh. rewrite Hh in Hdata.
  apply collect_length in Hdata.
  - by rewrite length_drop in Hdata.
  - intros row ops. unfold row_result, operation_of_row.
    destruct (narrative _); [|intros [= <-]; simpl; lia].
    destruct (2 <=? columns df)%nat; [intros [= <-]; simpl; lia|discriminate].
Qed.

Lemma segmenter_at_most_one_per_row_witness :
  length [ {| time_date := "08:15:00"; details := "Run in hole" |} ]
  <= len open_ended_frame - (0 + 2).
Proof.
  by apply (segmenter_at_most_one_per_row open_ended_frame 2 0).
Defined.

(** X14. The time string is empty exactly when the start shows as nothing
    (a missing cell or an empty text) and the end is not a timestamp. *)
Theorem format_time_empty (time_from time_to : cell) :
  format_time time_from time_to = "" <->
  shown_as_start time_from = "" /\ forall t, time_to <> CTimestamp t.
Proof.
  assert (format_time time_from time_to
          = match time_to with
            | CEmpty => shown_as_start time_from
            | CTimestamp t => shown_as_start time_from ++ " to " ++ strftime_time t
            | CStr s | CPlain s =>
                if String.eqb (shown_as_start time_from) ""
                then shown_as_start time_from
                else shown_as_start time_from ++ " to " ++ s
            end) as -> by (by destruct time_from).
  destruct time_to as [|s|t|s].
  - split; [by intros -> | by intros [-> _]].
  - destruct (String.eqb_spec (shown_as_start time_from) "") as [->|Hshown].
    + by split.
    + split; [by intros [H _]%append_eq_nil | by intros [H _]].
  - split.
    + by intros [_ H]%append_eq_nil.
    + intros [_ H]. by destruct (H t).
  - destruct (String.eqb_spec (shown_as_start time_from) "") as [->|Hshown].
    + by split.
    + split; [by intros [H _]%append_eq_nil | by intros [H _]].
Qed.

Lemma format_time_empty_witness :
  format_time CEmpty (CPlain "8.25") = "".
Proof.
  apply (proj2 (format_time_empty CEmpty (CPlain "8.25"))).
  split; [reflexivity | discriminate].
Defined.

(** ** The report number, continued *)

Lemma all_chars_append (p : ascii -> bool) (a b : string) :
  PyStr.all_chars p (a ++ b) = PyStr.all_chars p a && PyStr.all_chars p b.
Proof.
  induction a as [|c a IH]; simpl; [done|]. by rewrite IH, andb_assoc.
Qed.

(** X15. The report number is the bare filename, or a non-empty run of
    digits that occurs in the bare filename. *)
Theorem extract_report_number_digits_or_stem (filepath : Path) :
  extract_report_number filepath = stem filepath
  \/ (extract_report_number filepath <> ""
      /\ PyStr.all_chars PyStr.is_digit (extract_report_number filepath) = true
      /\ is_substring (extract_report_number filepath) (stem filepath)).
Proof.
  unfold extract_report_number.
  destruct (re_search (stem filepath)) as [ds|] eqn:Hsearch; [right|by left].
  apply re_search_Some in Hsearch
    as (pre & s' & Hs & (sep & rest & -> & _ & Hne & Hds & _) & _).
  split; [done|]. split; [done|].
  exists (pre ++ sep), rest. by rewrite Hs, !append_assoc.
Qed.

(** X16. A bare filename without any digit is its own report number. *)
Theorem extract_report_number_without_digits (filepath : Path) :
  PyStr.all_chars not_digit (stem filepath) = true ->
  extract_report_number filepath = stem filepath.
Proof.
  intros Hnone. unfold extract_report_number.
  assert (re_search (stem filepath) = None) as ->; [|done].
  apply re_search_None. intros pre s' ds Hs (sep & rest & -> & _ & Hne & Hds & _).
  rewrite Hs, !all_chars_append, !andb_true_iff in Hnone.
  destruct Hnone as (_ & _ & Hnot & _).
  destruct ds as [|c ds]; [done|]. simpl in *. unfold not_digit in Hnot.
  apply andb_true_iff in Hds as [Hc _], Hnot as [Hnc _].
  by rewrite Hc in Hnc.
Qed.

Lemma extract_report_number_without_digits_witness :
  extract_report_number {| parent := "input-sheets"; name := "DDR final.xlsx" |}
  = "DDR final".
Proof.
  apply (extract_report_number_without_digits
           {| parent := "input-sheets"; name := "DDR final.xlsx" |}).
  reflexivity.
Defined.

(** ** One workbook, continued *)

Section ForEach.

Context {A S : Type}.
Variable body : S -> A -> result S.

Lemma for_each_invariant (I : S -> Prop) (xs : list A) (acc r : S) :
  I acc ->
  (forall acc x acc', I acc -> In x xs -> body acc x = Ok acc' -> I acc') ->
  for_each xs acc body = Ok r -> I r.
Proof.
  revert acc; induction xs as [|x xs IH]; intros acc Hacc Hstep; simpl.
  - by intros [= <-].
  - destruct (body acc x) as [acc'|e] eqn:Hx; simpl; [|discriminate].
    apply IH.
    + apply (Hstep acc x acc'); [done | by left | done].
    + intros a y a' Ha Hy. apply Hstep; [done | by right].
Qed.

Lemma for_each_unchanged (xs : list A) (acc : S) :
  (forall x, In x xs -> body acc x = Ok acc) -> for_each xs acc body = Ok acc.
Proof.
  induction xs as [|x xs IH]; intros Hstep; simpl; [done|].
  rewrite Hstep by (by left). simpl. apply IH. intros y Hy. apply Hstep. by right.
Qed.

Lemma for_each_total (xs : list A) (acc : S) :
  (forall acc x, In x xs -> exists acc', body acc x = Ok acc') ->
  exists r, for_each xs acc body = Ok r.
Proof.
  revert acc; induction xs as [|x xs IH]; intros acc Hstep; simpl; [by eexists|].
  destruct (Hstep acc x ltac:(by left)) as (acc' & ->). simpl.
  apply IH. intros a y Hy. apply Hstep. by right.
Qed.

Lemma for_each_raises (xs : list A) (acc : S) (x : A) :
  In x xs -> (forall acc, exists e, body acc x = Raise e) ->
  exists e, for_each xs acc body = Raise e.
Proof.
  intros Hin Hraise. revert acc; induction xs as [|y xs IH]; intros acc; simpl.
  - destruct Hin.
  - destruct Hin as [->|Hin].
    + destruct (Hraise acc) as (e & ->). by exists e.
    + destruct (body acc y) as [acc'|e]; simpl; [by apply IH | by exists e].
Qed.

End ForEach.

Lemma find_sheet_Some (sheet_name : string) (xl : list (string * sheet)) (sh : sheet) :
  find_sheet sheet_name xl = Some sh -> In (sheet_name, sh) xl.
Proof.
  induction xl as [|[n sh'] xl IH]; simpl; [discriminate|].
  destruct (String.eqb_spec n sheet_name) as [->|Hne].
  - intros [= ->]. by left.
  - intros H. right. by apply IH.
Qed.

Lemma find_sheet_listed (sheet_name : string) (xl : list (string * sheet)) :
  In sheet_name (sheet_names xl) -> exists sh, find_sheet sheet_name xl = Some sh.
Proof.
  unfold sheet_names. induction xl as [|[n sh'] xl IH]; simpl; [done|].
  destruct (String.eqb_spec n sheet_name) as [->|Hne]; [by eexists|].
  intros [Heq|Hin]; [done | by apply IH].
Qed.

Lemma risk_match_of_tagged (report : string) (keywords : list string)
    (op : operation) (m : risk_match) :
  In m (risk_match_of report keywords op) -> tagged_row report keywords m.
Proof.
  unfold risk_match_of.
  destruct (search_keywords (details op) keywords) as [|kw matched] eqn:Hmatched;
    [done|].
  intros [<-|[]]. split; [done|].
  exists (kw :: matched). split; [done|]. split; [|done].
  rewrite <- Hmatched, search_keywords_filter. apply filter_sublist.
Qed.

Lemma process_ddr_file_tagged (fs : gmap string file) (filepath : Path)
    (keywords : list string) (results : list risk_match) :
  process_ddr_file fs filepath keywords = Ok results ->
  Forall (tagged_row (extract_report_number filepath) keywords) results.
Proof.
  unfold process_ddr_file.
  destruct (ExcelFile fs filepath) as [xl|e]; simpl; [|discriminate].
  apply for_each_invariant; [by constructor|].
  intros acc sheet_name acc' Hacc _.
  destruct (read_excel fs filepath sheet_name) as [df|e]; simpl; [|discriminate].
  destruct (find_operations_column df) as [ops_col|e]; simpl; [|discriminate].
  destruct (ops_col =? -1)%Z; [by intros [= <-]|].
  destruct (find_operations_data df ops_col) as [operations|e]; simpl; [|discriminate].
  intros [= <-]. rewrite risk_matches_loop. apply Forall_app. split; [done|].
  apply Forall_forall. intros m Hm. apply list_elem_of_In, in_flat_map in Hm as (op & _ & Hm).
  by apply risk_match_of_tagged in Hm.
Qed.

(** X17. Every row a file yields carries the report number of that file,
    and its risks are the keywords of a non-empty subsequence of the keyword
    list, joined with ", ". *)
Theorem process_ddr_file_rows_are_tagged (fs : gmap string file) (filepath : Path)
    (keywords : list string) (results : list risk_match) (m : risk_match) :
  process_ddr_file fs filepath keywords = Ok results -> In m results ->
  report_number m = extract_report_number filepath
  /\ exists matched, matched <> [] /\ sublist matched keywords
                     /\ risks m = PyStr.join ", " matched.
Proof.
  intros Hok Hm. apply process_ddr_file_tagged in Hok.
  rewrite Forall_forall in Hok. by apply Hok, list_elem_of_In.
Qed.

Lemma process_ddr_file_rows_are_tagged_witness :
  report_number {| report_number := "42"; match_time_date := " to 07:30";
                   risks := "Mud loss" |} = extract_report_number sample_path
  /\ exists matched, matched <> [] /\ sublist matched RISK_KEYWORDS
                     /\ "Mud loss" = PyStr.join ", " matched.
Proof.
  refine (process_ddr_file_rows_are_tagged sample_fs sample_path RISK_KEYWORDS _ _ _ _).
  - vm_compute. reflexivity.
  - simpl. auto.
Defined.

(** X18. With no keyword nothing is flagged: the result table of a run
    over any folder is empty. *)
Theorem process_all_files_without_keywords
    (fs : gmap string file) (input_folder : Folder) :
  fst (process_all_files fs input_folder []) = [].
Proof.
  unfold process_all_files. rewrite process_all_files_loop. simpl.
  induction (glob input_folder ".xlsx" ++ glob input_folder ".xls")%list
    as [|filepath files IH]; simpl; [done|].
  rewrite IH, app_nil_r. unfold rows_of_file.
  destruct (process_ddr_file fs filepath []) as [[|m results]|e] eqn:Hok; try done.
  apply process_ddr_file_tagged in Hok. apply Forall_cons in Hok as [(_ & matched & Hne & Hsub & _) _].
  by apply sublist_nil_r in Hsub.
Qed.

(** X19. A workbook in which no sheet has the header yields no row and no
    error: such sheets are passed over. *)
Theorem process_ddr_file_without_header (fs : gmap string file) (filepath : Path)
    (keywords : list string) (xl : list (string * sheet)) :
  ExcelFile fs filepath = Ok xl ->
  (forall sheet_name sh, In (sheet_name, sh) xl ->
      exists df, sh = Sheet df /\ find_operations_column df = Ok (-1)%Z) ->
  process_ddr_file fs filepath keywords = Ok [].
Proof.
  intros Hxl Hsheets. unfold process_ddr_file. rewrite Hxl. cbn [bind].
  apply for_each_unchanged. intros sheet_name Hname.
  unfold read_excel. rewrite Hxl. cbn [bind].
  destruct (find_sheet_listed _ _ Hname) as (sh & Hsh). rewrite Hsh.
  apply find_sheet_Some in Hsh.
  destruct (Hsheets _ _ Hsh) as (df & -> & Hcol). cbn [bind]. by rewrite Hcol.
Qed.

Lemma process_ddr_file_without_header_witness :
  process_ddr_file cover_fs sample_path RISK_KEYWORDS = Ok [].
Proof.
  refine (process_ddr_file_without_header cover_fs sample_path RISK_KEYWORDS _ _ _).
  - reflexivity.
  - intros sheet_name sh [[= <- <-]|[[= <- <-]|[]]]; by eexists.
Defined.

(** X20. When a sheet of the workbook cannot be read the whole file
    raises, whatever the sheets before it matched: the file adds no row to
    the table of a run. *)
Theorem process_ddr_file_unreadable_sheet (fs : gmap string file) (filepath : Path)
    (keywords : list string) (xl : list (string * sheet))
    (sheet_name msg : string) :
  ExcelFile fs filepath = Ok xl ->
  find_sheet sheet_name xl = Some (BadSheet msg) ->
  (exists e, process_ddr_file fs filepath keywords = Raise e)
  /\ rows_of_file fs keywords filepath = [].
Proof.
  intros Hxl Hbad.
  assert (exists e, process_ddr_file fs filepath keywords = Raise e) as (e & He).
  { unfold process_ddr_file. rewrite Hxl. cbn [bind].
    apply for_each_raises with sheet_name.
    - apply find_sheet_Some in Hbad. unfold sheet_names.
      apply in_map_iff. by exists (sheet_name, BadSheet msg).
    - intros acc. unfold read_excel. rewrite Hxl. cbn [bind]. rewrite Hbad.
      by eexists. }
  split; [by exists e|]. unfold rows_of_file. by rewrite He.
Qed.

Lemma process_ddr_file_unreadable_sheet_witness :
  (exists e, process_ddr_file damaged_fs sample_path RISK_KEYWORDS = Raise e)
  /\ rows_of_file damaged_fs RISK_KEYWORDS sample_path = [].
Proof.
  by apply (process_ddr_file_unreadable_sheet damaged_fs sample_path RISK_KEYWORDS
              [("Sheet1", Sheet sample_frame); ("Sheet2", BadSheet "Bad zip entry")]
              "Sheet2" "Bad zip entry").
Defined.

Lemma find_operations_column_Ok (df : DataFrame) :
  exists c, find_operations_column df = Ok c
            /\ (c = (-1)%Z \/ (0 <= c < Z.of_nat (columns df))%Z).
Proof.
  destruct (find_operations_column df) as [c|e] eqn:Hcol.
  - exists c. split; [done|].
    destruct (decide (c = (-1)%Z)) as [|Hfound]; [by left|right].
    destruct (find_operations_column_found _ _ Hcol Hfound) as (r & c' & -> & _ & Hc & _).
    lia.
  - rewrite find_operations_column_scan in Hcol. discriminate.
Qed.

(** X21. A workbook whose sheets can all be read and are at least two
    columns wide is processed without exception. *)
Theorem process_ddr_file_total_on_wide_sheets (fs : gmap string file)
    (filepath : Path) (keywords : list string) (xl : list (string * sheet)) :
  ExcelFile fs filepath = Ok xl ->
  (forall sheet_name sh, In (sheet_name, sh) xl ->
      exists df, sh = Sheet df /\ 2 <= columns df) ->
  exists results, process_ddr_file fs filepath keywords = Ok results.
Proof.
  intros Hxl Hsheets. unfold process_ddr_file. rewrite Hxl. cbn [bind].
  apply for_each_total. intros acc sheet_name Hname.
  unfold read_excel. rewrite Hxl. cbn [bind].
  destruct (find_sheet_listed _ _ Hname) as (sh & Hsh). rewrite Hsh.
  apply find_sheet_Some in Hsh.
  destruct (Hsheets _ _ Hsh) as (df & -> & Hwide). cbn [bind].
  destruct (find_operations_column_Ok df) as (c & -> & Hc). cbn [bind].
  destruct (Z.eqb_spec c (-1)) as [|Hfound]; [by eexists|].
  destruct (column_position_valid df c ltac:(lia)) as (pos & Hpos).
  rewrite (find_operations_data_closed _ _ _ Hpos).
  destruct (header_row_of df pos); [rewrite collect_wide by done|]; by eexists.
Qed.

Lemma process_ddr_file_total_on_wide_sheets_witness :
  exists results,
    process_ddr_file two_sheet_fs {| parent := "input-sheets"; name := "DDR 7.xls" |}
                     RISK_KEYWORDS = Ok results.
Proof.
  refine (process_ddr_file_total_on_wide_sheets two_sheet_fs _ RISK_KEYWORDS _ _ _).
  - reflexivity.
  - intros sheet_name sh [[= <- <-]|[[= <- <-]|[]]]; eexists; (split; [reflexivity|]);
      simpl; lia.
Defined.

(** ** The driver, continued *)

Lemma glob_In (folder : Folder) (suffix : string) (filepath : Path) :
  In filepath (glob folder suffix) <->
  parent filepath = folder_path folder /\ In (name filepath) (entries folder)
  /\ PyStr.endswith suffix (name filepath) = true.
Proof.
  unfold glob. rewrite in_map_iff. split.
  - intros (n & <- & Hn). apply filter_In in Hn as [Hn Hsuffix]. by simpl.
  - intros (Hparent & Hn & Hsuffix). exists (name filepath).
    split; [destruct filepath; simpl in *; by subst|]. by apply filter_In.
Qed.

Lemma xlsx_is_not_xls (n : string) :
  PyStr.endswith ".xlsx" n = true -> PyStr.endswith ".xls" n = false.
Proof.
  induction n as [|c n IH]; [discriminate|]. cbn [PyStr.endswith].
  rewrite orb_true_iff. intros [Heq|Htail].
  - apply String.eqb_eq in Heq. injection Heq as <- <-. reflexivity.
  - rewrite (IH Htail), orb_false_r.
    destruct (String.eqb_spec ".xls" (String c n)) as [Heq|]; [|done].
    injection Heq as <- <-. discriminate.
Qed.

Lemma glob_NoDup (folder : Folder) (suffix : string) :
  NoDup (entries folder) -> NoDup (glob folder suffix).
Proof.
  intros Hentries. unfold glob.
  induction Hentries as [|n l Hn _ IH]; simpl; [constructor|].
  destruct (PyStr.endswith suffix n); [|done]. simpl. constructor; [|done].
  rewrite list_elem_of_In, in_map_iff. intros (n' & [= <-] & Hn').
  apply filter_In in Hn' as [Hn' _]. by apply Hn, list_elem_of_In.
Qed.

(** X22. Every row of the table of a run comes from an entry of the input
    folder whose name ends in [.xlsx] or [.xls], and carries the report
    number of that file. *)
Theorem process_all_files_rows_from_excel_files
    (fs : gmap string file) (input_folder : Folder) (keywords : list string)
    (m : risk_match) :
  In m (fst (process_all_files fs input_folder keywords)) ->
  exists n,
    In n (entries input_folder)
    /\ (PyStr.endswith ".xlsx" n = true \/ PyStr.endswith ".xls" n = true)
    /\ report_number m
       = extract_report_number {| parent := folder_path input_folder; name := n |}.
Proof.
  unfold process_all_files. rewrite process_all_files_loop. simpl.
  intros (filepath & Hfile & Hm)%in_flat_map.
  unfold rows_of_file in Hm.
  destruct (process_ddr_file fs filepath keywords) as [results|e] eqn:Hok; [|done].
  apply process_ddr_file_tagged in Hok. rewrite Forall_forall in Hok.
  destruct (Hok m) as [Hreport _]; [by apply list_elem_of_In|].
  exists (name filepath).
  assert (parent filepath = folder_path input_folder
          /\ In (name filepath) (entries input_folder)
          /\ (PyStr.endswith ".xlsx" (name filepath) = true
              \/ PyStr.endswith ".xls" (name filepath) = true))
    as (Hparent & Hn & Hsuffix).
  { apply in_app_or in Hfile as [H|H]; apply glob_In in H as (? & ? & ?); auto. }
  split; [done|]. split; [done|].
  rewrite Hreport. by destruct filepath.
Qed.

Lemma process_all_files_rows_from_excel_files_witness :
  exists n,
    In n (entries mixed_folder)
    /\ (PyStr.endswith ".xlsx" n = true \/ PyStr.endswith ".xls" n = true)
    /\ "42" = extract_report_number {| parent := folder_path mixed_folder; name := n |}.
Proof.
  refine (process_all_files_rows_from_excel_files mixed_fs mixed_folder RISK_KEYWORDS
            {| report_number := "42"; match_time_date := ""; risks := "Kick" |} _).
  vm_compute. auto.
Defined.

(** X23. No file is processed twice: a name matched by [*.xlsx] is not
    matched by [*.xls], so the files of a folder without repeated names
    are traversed once each. *)
Theorem excel_files_are_traversed_once (input_folder : Folder) :
  NoDup (entries input_folder) ->
  NoDup (glob input_folder ".xlsx" ++ glob input_folder ".xls")%list.
Proof.
  intros Hentries. apply NoDup_app. split; [by apply glob_NoDup|].
  split; [|by apply glob_NoDup].
  intros filepath Hxlsx Hxls.
  apply list_elem_of_In, glob_In in Hxlsx as (_ & _ & Hxlsx).
  apply list_elem_of_In, glob_In in Hxls as (_ & _ & Hxls).
  apply xlsx_is_not_xls in Hxlsx. congruence.
Qed.

Lemma excel_files_are_traversed_once_witness :
  NoDup (glob mixed_folder ".xlsx" ++ glob mixed_folder ".xls")%list.
Proof.
  apply excel_files_are_traversed_once. simpl.
  repeat (constructor; [rewrite !list_elem_of_In; simpl; intuition discriminate|]).
  constructor.
Defined.

(** ** The writer, continued *)

(** X24. [save_results] writes to the output path only: every other path
    of the file system is as before. *)
Theorem save_results_other_paths (df : list risk_match) (output_path : Path)
    (sheet_name : string) (fs fs' : gmap string file) (console : list string)
    (other : string) :
  save_results df output_path sheet_name fs = Ok (fs', console) ->
  other <> path_str output_path ->
  fs' !! other = fs !! other.
Proof.
  unfold save_results, ExcelFile. intros Hsave Hother.
  destruct (empty df); [by injection Hsave as <- _|].
  destruct (fs !! path_str output_path) as [[xl|msg]|]; simpl in Hsave;
    try discriminate; injection Hsave as <- _; by rewrite lookup_insert_ne.
Qed.

Lemma save_results_other_paths_witness :
  <["output/risk_analysis.xlsx" :=
      Workbook [("Risk Analysis",
                 to_excel [{| report_number := "42"; match_time_date := "";
                              risks := "Kick" |}])]]> sample_fs
    !! "input-sheets/DDR #42.xlsx"
  = sample_fs !! "input-sheets/DDR #42.xlsx".
Proof.
  refine (save_results_other_paths
            [{| report_number := "42"; match_time_date := ""; risks := "Kick" |}]
            {| parent := "output"; name := "risk_analysis.xlsx" |}
            "Risk Analysis" sample_fs _
            ["Results saved to: output/risk_analysis.xlsx"] _ _ _).
  - reflexivity.
  - discriminate.
Defined.
